(** * scripts/qgis_risk_assessment.py: a shallow embedding

    The script is a placeholder for a PyQGIS risk-assessment workflow.  It
    consists of one constant ([QGIS_INSTALL_PATH]), two functions
    ([initialize_qgis], [run_risk_assessment]) and the main execution block.

    Python statements are embedded in a small state-and-exception monad
    ([Py.M]): a computation takes the process state it may read or modify
    ([Py.world]) and gives back how it ended (a value or a raised exception),
    the state it left and the events it emitted, in order.  The events are what
    an observer of the process sees: a line printed on standard output, or a
    call into the external QGIS library.

    The QGIS library is not part of the script.  What each of its entry points
    does in one run is given by an oracle ([Py.env]): it either returns or
    raises an exception of some class.  Every library entry point is reached at
    most once per run, so an oracle indexed by the entry point describes every
    possible behaviour of the library in a run.

    Standard output has an encoding, fixed when the process starts.  [print]
    writes a text the encoding can encode and raises [UnicodeEncodeError] on one
    it cannot: four of the script's messages hold a character outside ASCII
    (the check mark U+2705 on lines 46 and 65, the cross mark U+274C on lines
    49 and 53).  Failures that come from outside during a run (a closed pipe,
    a signal) are not modelled. *)

From Stdlib Require Import String Ascii List Bool NArith DecimalString.
Import ListNotations.
Open Scope string_scope.

(** ** The external library's entry points used by the script *)

Module Qgis.

(** The application object built by [QgsApplication([], False)]. *)
Variant QgsApp : Type := qgs_app.

Inductive libop : Type :=
| ImportQgsApplication                                  (* from qgis.core import QgsApplication *)
| ImportQgsRasterCalculator                             (* from qgis.analysis import QgsRasterCalculator *)
| SetPrefixPath (path : string) (use_default : bool)    (* QgsApplication.setPrefixPath(path, flag) *)
| NewQgsApplication (argv : list string) (gui : bool)   (* QgsApplication(argv, gui) *)
| InitQgis                                              (* qgs.initQgis() *)
| ImportProcessing                                      (* import processing *)
| ImportProcessingClass                                 (* from processing.core.Processing import Processing *)
| ProcessingInitialize                                  (* Processing.initialize() *)
| ExitQgis.                                             (* qgs_instance.exitQgis() *)

Definition is_import (op : libop) : bool :=
  match op with
  | ImportQgsApplication | ImportQgsRasterCalculator
  | ImportProcessing | ImportProcessingClass => true
  | _ => false
  end.

End Qgis.

(** ** The fragment of Python the script is written in *)

Module Py.
Import Qgis.

(** *** Exceptions and their classes *)

Inductive exn_class : Type :=
| BaseException | Exception
| ImportError | ModuleNotFoundError
| RuntimeError | OSError | ValueError
| UnicodeError | UnicodeEncodeError
| KeyboardInterrupt | SystemExit
| Derived (name : string) (parent : exn_class).   (* class name(parent): defined by a library *)

Fixpoint exn_class_eqb (c d : exn_class) : bool :=
  match c, d with
  | BaseException, BaseException | Exception, Exception
  | ImportError, ImportError | ModuleNotFoundError, ModuleNotFoundError
  | RuntimeError, RuntimeError | OSError, OSError | ValueError, ValueError
  | UnicodeError, UnicodeError | UnicodeEncodeError, UnicodeEncodeError
  | KeyboardInterrupt, KeyboardInterrupt | SystemExit, SystemExit => true
  | Derived n p, Derived n' p' => String.eqb n n' && exn_class_eqb p p'
  | _, _ => false
  end.

(** The class and its bases, nearest first ([__mro__] without [object]); the
    built-in classes as in Python's hierarchy. *)
Fixpoint mro (c : exn_class) : list exn_class :=
  match c with
  | BaseException => [BaseException]
  | Exception => [Exception; BaseException]
  | KeyboardInterrupt => [KeyboardInterrupt; BaseException]
  | SystemExit => [SystemExit; BaseException]
  | ImportError => [ImportError; Exception; BaseException]
  | ModuleNotFoundError => [ModuleNotFoundError; ImportError; Exception; BaseException]
  | RuntimeError => [RuntimeError; Exception; BaseException]
  | OSError => [OSError; Exception; BaseException]
  | ValueError => [ValueError; Exception; BaseException]
  | UnicodeError => [UnicodeError; ValueError; Exception; BaseException]
  | UnicodeEncodeError =>
      [UnicodeEncodeError; UnicodeError; ValueError; Exception; BaseException]
  | Derived _ p => c :: mro p
  end.

Definition issubclass (c d : exn_class) : bool := existsb (exn_class_eqb d) (mro c).

(** A raised exception: its class and what [str(e)] gives. *)
Record exn : Type := mk_exn { exn_cls : exn_class; exn_str : string }.

Definition isinstance (e : exn) (c : exn_class) : bool := issubclass (exn_cls e) c.

(** *** Process state and observable events *)

(** The encoding of standard output: UTF-8, which encodes every text, or ASCII
    with strict error handling, which encodes the characters below 128 only
    (what [PYTHONIOENCODING=ascii] or the C locale of older interpreters give;
    for the script's messages any encoding without the two marks behaves so). *)
Inductive encoding : Type := UTF8 | ASCII.

(** The state the script's own statements can reach through the modules it
    imports ([sys], [os]) and through built-ins: the module search path, the
    process environment, the command line, the files it could create, and the
    encoding of standard output. *)
Record world : Type := mk_world {
  sys_path : list string;
  environ : list (string * string);
  argv : list string;
  files : list (string * string);
  stdout_encoding : encoding
}.

(** *** Texts and encodings *)

(** Strings are held as their UTF-8 bytes. *)
Fixpoint is_ascii (s : string) : bool :=
  match s with
  | EmptyString => true
  | String c rest => (N_of_ascii c <? 128)%N && is_ascii rest
  end.

Definition can_encode (enc : encoding) (s : string) : bool :=
  match enc with
  | UTF8 => true
  | ASCII => is_ascii s
  end.

Definition flush (cur : option N) : list N :=
  match cur with
  | Some cp => [cp]
  | None => []
  end.

(** The code points of a text, decoded from its UTF-8 bytes; [cur] is the code
    point whose bytes are being read. *)
Fixpoint code_points_from (cur : option N) (s : string) : list N :=
  match s with
  | EmptyString => flush cur
  | String c rest =>
      let b := N_of_ascii c in
      if (b <? 128)%N then flush cur ++ b :: code_points_from None rest
      else if (b <? 192)%N then
        code_points_from
          (Some (match cur with Some cp => cp * 64 | None => 0 end + (b - 128))%N) rest
      else if (b <? 224)%N then flush cur ++ code_points_from (Some (b - 192)%N) rest
      else if (b <? 240)%N then flush cur ++ code_points_from (Some (b - 224)%N) rest
      else flush cur ++ code_points_from (Some (b - 240)%N) rest
  end.

Definition code_points (s : string) : list N := code_points_from None s.

Definition hex_digit (d : N) : ascii :=
  ascii_of_N (if (d <? 10)%N then 48 + d else 87 + d)%N.

Fixpoint hex (width : nat) (v : N) : string :=
  match width with
  | O => EmptyString
  | S k => hex k (v / 16)%N ++ String (hex_digit (v mod 16)%N) EmptyString
  end.

Definition backslash : string := String (ascii_of_nat 92) EmptyString.

(** How the message of a [UnicodeEncodeError] shows the character. *)
Definition escape (cp : N) : string :=
  if (cp <=? 255)%N then backslash ++ "x" ++ hex 2 cp
  else if (cp <=? 65535)%N then backslash ++ "u" ++ hex 4 cp
  else backslash ++ "U" ++ hex 8 cp.

Definition dec (n : nat) : string := NilZero.string_of_uint (Nat.to_uint n).

Fixpoint bad_run_length (cps : list N) : nat :=
  match cps with
  | cp :: rest => if (cp <? 128)%N then 0 else S (bad_run_length rest)
  | [] => 0
  end.

(** The first stretch of characters ASCII cannot encode: its first character,
    its position and the position of its last character. *)
Fixpoint first_bad_run (pos : nat) (cps : list N) : option (N * nat * nat) :=
  match cps with
  | [] => None
  | cp :: rest =>
      if (cp <? 128)%N then first_bad_run (S pos) rest
      else Some (cp, pos, pos + bad_run_length rest)
  end.

(** [str(e)] of the [UnicodeEncodeError] the ASCII codec raises on [s]. *)
Definition ascii_error_text (s : string) : string :=
  match first_bad_run 0 (code_points s) with
  | None => EmptyString
  | Some (cp, first, last) =>
      if Nat.eqb first last then
        "'ascii' codec can't encode character '" ++ escape cp ++ "' in position " ++
        dec first ++ ": ordinal not in range(128)"
      else
        "'ascii' codec can't encode characters in position " ++ dec first ++ "-" ++
        dec last ++ ": ordinal not in range(128)"
  end.

Definition encode_error (s : string) : exn :=
  mk_exn UnicodeEncodeError (ascii_error_text s).

Inductive event : Type :=
| EvPrint (line : string)     (* print(line): the text, a newline is added on output *)
| EvCall (op : libop).        (* control enters the QGIS library *)

(** The oracle of one run: [None] when the entry point returns normally. *)
Definition env : Type := libop -> option exn.

(** *** The monad *)

Inductive result (A : Type) : Type :=
| Returned (a : A)
| Raised (e : exn).
Arguments Returned {A} a.
Arguments Raised {A} e.

Record outcome (A : Type) : Type := mk_outcome {
  res : result A;
  final : world;
  out : list event
}.
Arguments mk_outcome {A} res final out.
Arguments res {A} o.
Arguments final {A} o.
Arguments out {A} o.

Definition M (A : Type) : Type := world -> outcome A.

Definition ret {A : Type} (a : A) : M A :=
  fun w => mk_outcome (Returned a) w [].

Definition raise {A : Type} (e : exn) : M A :=
  fun w => mk_outcome (Raised e) w [].

Definition bind {A B : Type} (m : M A) (k : A -> M B) : M B :=
  fun w =>
    let o := m w in
    match res o with
    | Returned a =>
        let o' := k a (final o) in
        mk_outcome (res o') (final o') (out o ++ out o')
    | Raised e => mk_outcome (Raised e) (final o) (out o)
    end.

(** [print(s)]: the text goes out when standard output can encode it;
    otherwise nothing is written and [UnicodeEncodeError] is raised. *)
Definition print (s : string) : M unit :=
  fun w =>
    if can_encode (stdout_encoding w) s
    then mk_outcome (Returned tt) w [EvPrint s]
    else mk_outcome (Raised (encode_error s)) w [].

(** A call into the library: control enters it, then the oracle decides. *)
Definition call (E : env) (op : libop) : M unit :=
  fun w =>
    match E op with
    | None => mk_outcome (Returned tt) w [EvCall op]
    | Some e => mk_outcome (Raised e) w [EvCall op]
    end.

(** [sys.path.append(p)] *)
Definition sys_path_append (p : string) : M unit :=
  fun w =>
    mk_outcome (Returned tt)
      (mk_world (sys_path w ++ [p]) (environ w) (argv w) (files w) (stdout_encoding w)) [].

(** The first [except C] clause whose class the exception is an instance of. *)
Fixpoint select_handler {A : Type} (hs : list (exn_class * (exn -> M A))) (e : exn)
  : option (exn -> M A) :=
  match hs with
  | [] => None
  | (c, h) :: rest => if isinstance e c then Some h else select_handler rest e
  end.

(** [try: body  except C1: h1  except C2 as e: h2 ...].  A handler runs in the
    state the body left; an exception no clause matches, and one raised by a
    handler, propagate. *)
Definition try_except {A : Type} (body : M A) (hs : list (exn_class * (exn -> M A))) : M A :=
  fun w =>
    let o := body w in
    match res o with
    | Returned a => o
    | Raised e =>
        match select_handler hs e with
        | Some h =>
            let o' := h e (final o) in
            mk_outcome (res o') (final o') (out o ++ out o')
        | None => o
        end
    end.

(** Truth value of [x] in [if x:] where [x] is [None] or an object whose class
    defines neither [__bool__] nor [__len__] (such objects are true). *)
Definition truthy {A : Type} (x : option A) : bool :=
  match x with
  | Some _ => true
  | None => false
  end.

(** [os.path.join(a, b)] on a POSIX system ([posixpath.join]). *)
Fixpoint endswith_sep (s : string) : bool :=
  match s with
  | EmptyString => false
  | String c EmptyString => Ascii.eqb c "/"
  | String _ rest => endswith_sep rest
  end.

Definition os_path_join (a b : string) : string :=
  if String.prefix "/" b then b
  else if (String.eqb a EmptyString || endswith_sep a)%bool then a ++ b
  else a ++ "/" ++ b.

(** The text a sequence of events leaves on standard output. *)
Definition newline : string := String (ascii_of_nat 10) EmptyString.

Fixpoint stdout_text (evs : list event) : string :=
  match evs with
  | [] => EmptyString
  | EvPrint s :: rest => s ++ newline ++ stdout_text rest
  | EvCall _ :: rest => stdout_text rest
  end.

Definition is_print (ev : event) : bool :=
  match ev with
  | EvPrint _ => true
  | EvCall _ => false
  end.

Declare Scope py_scope.
Delimit Scope py_scope with py.
Notation "x <- m ;; k" := (bind m (fun x => k))
  (at level 100, m at next level, right associativity) : py_scope.
Notation "m ;; k" := (bind m (fun _ => k))
  (at level 100, right associativity) : py_scope.

End Py.

(** ** The script *)

Module Script.
Import Qgis Py.
Local Open Scope py_scope.

(** [QGIS_INSTALL_PATH = '/usr'] *)
Definition QGIS_INSTALL_PATH : string := "/usr".

(** [qgs = QgsApplication([], False)] *)
Definition new_QgsApplication (E : env) (args : list string) (gui : bool) : M QgsApp :=
  call E (NewQgsApplication args gui) ;; ret qgs_app.

Definition msg_init_ok : string :=
  "✅ QGIS environment initialized successfully.".
Definition msg_not_found : string :=
  "❌ Error: PyQGIS libraries not found. Is QGIS_INSTALL_PATH correct?".
Definition msg_cannot_run : string :=
  "   This script cannot run without a local QGIS installation.".
Definition msg_unexpected (e : exn) : string :=
  "❌ An unexpected error occurred during QGIS initialization: " ++ exn_str e.

(** The body of the [try] statement of [initialize_qgis]. *)
Definition initialize_qgis_body (E : env) : M (option QgsApp) :=
  call E ImportQgsApplication ;;
  call E ImportQgsRasterCalculator ;;
  call E (SetPrefixPath QGIS_INSTALL_PATH true) ;;
  qgs <- new_QgsApplication E [] false ;;
  call E InitQgis ;;
  sys_path_append (os_path_join QGIS_INSTALL_PATH "apps/qgis/python/plugins") ;;
  call E ImportProcessing ;;
  call E ImportProcessingClass ;;
  call E ProcessingInitialize ;;
  print msg_init_ok ;;
  ret (Some qgs).

Definition initialize_qgis (E : env) : M (option QgsApp) :=
  try_except (initialize_qgis_body E)
    [ (ImportError, fun _ => print msg_not_found ;; print msg_cannot_run ;; ret None);
      (Exception, fun e => print (msg_unexpected e) ;; ret None) ].

Definition msg_start : string := newline ++ "--- Starting Automated Risk Assessment ---".
Definition msg_step1 : string := newline ++ "Step 1: Loading spatial layers... (Placeholder)".
Definition msg_step2 : string := "Step 2: Standardizing layers by clipping... (Placeholder)".
Definition msg_step3 : string := "Step 3: Normalizing layers to 0-1 scale... (Placeholder)".
Definition msg_step4 : string := "Step 4: Applying Weighted Linear Combination... (Placeholder)".
Definition msg_complete : string := newline ++ "✅ Risk assessment workflow complete (simulation).".
Definition msg_saved : string := "Final risk map would be saved in the output directory.".

Definition run_risk_assessment : M unit :=
  print msg_start ;;
  print msg_step1 ;;
  print msg_step2 ;;
  print msg_step3 ;;
  print msg_step4 ;;
  print msg_complete ;;
  print msg_saved.

Definition msg_banner : string := "Running PyQGIS Script for 'The Digital Epidemic'".
Definition msg_closed : string := newline ++ "QGIS environment closed.".
Definition msg_halted : string :=
  newline ++ "Script execution halted due to initialization failure.".

(** The block under [if __name__ == "__main__":]. *)
Definition main (E : env) : M unit :=
  print msg_banner ;;
  qgs_instance <- initialize_qgis E ;;
  if truthy qgs_instance then
    run_risk_assessment ;;
    call E ExitQgis ;;
    print msg_closed
  else
    print msg_halted.

End Script.

(** ** The text of the script

    The file as it is stored: [source_lines] are its lines, each of which ends
    in a newline character in the file. *)

Module SourceText.

Definition dq : string := String (ascii_of_nat 34) EmptyString.

Definition source_lines : list string :=
  [
    (*  1 *) "# ==============================================================================";
    (*  2 *) "# Standalone PyQGIS Script for Automated Risk Assessment";
    (*  3 *) "# ==============================================================================";
    (*  4 *) "#";
    (*  5 *) "# This script is a placeholder for the advanced GIS automation detailed in";
    (*  6 *) "# Chapter 11 of " ++ dq ++ "The Digital Epidemic" ++ dq ++ ".";
    (*  7 *) "#";
    (*  8 *) "# PURPOSE:";
    (*  9 *) "# To automatically perform a knowledge-driven Weighted Linear Combination (WLC)";
    (* 10 *) "# risk assessment using a set of raster input layers.";
    (* 11 *) "#";
    (* 12 *) "# HOW TO RUN:";
    (* 13 *) "# This script is intended to be run in an environment where the PyQGIS";
    (* 14 *) "# libraries are accessible. It requires a local QGIS installation.";
    (* 15 *) "#";
    (* 16 *) "# See the book manuscript for the full implementation details, including";
    (* 17 *) "# how to set up the QGIS environment and define the input parameters.";
    (* 18 *) EmptyString;
    (* 19 *) "import os";
    (* 20 *) "import sys";
    (* 21 *) EmptyString;
    (* 22 *) "# --- USER-DEFINED PARAMETERS ---";
    (* 23 *) "# In the full script, these would be configured by the user.";
    (* 24 *) EmptyString;
    (* 25 *) "# IMPORTANT: This path must be changed to your local QGIS installation";
    (* 26 *) "QGIS_INSTALL_PATH = '/usr' # Example for Linux; 'C:/Program Files/QGIS 3.28.3' for Windows";
    (* 27 *) EmptyString;
    (* 28 *) "# --- SCRIPT LOGIC (Placeholder) ---";
    (* 29 *) EmptyString;
    (* 30 *) "def initialize_qgis():";
    (* 31 *) "    " ++ dq ++ dq ++ dq ++ "Initializes the QGIS application and processing framework." ++ dq ++ dq ++ dq;
    (* 32 *) "    try:";
    (* 33 *) "        from qgis.core import QgsApplication";
    (* 34 *) "        from qgis.analysis import QgsRasterCalculator";
    (* 35 *) EmptyString;
    (* 36 *) "        QgsApplication.setPrefixPath(QGIS_INSTALL_PATH, True)";
    (* 37 *) "        qgs = QgsApplication([], False)";
    (* 38 *) "        qgs.initQgis()";
    (* 39 *) "        ";
    (* 40 *) "        # Add the path to Processing framework";
    (* 41 *) "        sys.path.append(os.path.join(QGIS_INSTALL_PATH, 'apps/qgis/python/plugins'))";
    (* 42 *) "        import processing";
    (* 43 *) "        from processing.core.Processing import Processing";
    (* 44 *) "        Processing.initialize()";
    (* 45 *) "        ";
    (* 46 *) "        print(" ++ dq ++ "✅ QGIS environment initialized successfully." ++ dq ++ ")";
    (* 47 *) "        return qgs";
    (* 48 *) "    except ImportError:";
    (* 49 *) "        print(" ++ dq ++ "❌ Error: PyQGIS libraries not found. Is QGIS_INSTALL_PATH correct?" ++ dq ++ ")";
    (* 50 *) "        print(" ++ dq ++ "   This script cannot run without a local QGIS installation." ++ dq ++ ")";
    (* 51 *) "        return None";
    (* 52 *) "    except Exception as e:";
    (* 53 *) "        print(f" ++ dq ++ "❌ An unexpected error occurred during QGIS initialization: {e}" ++ dq ++ ")";
    (* 54 *) "        return None";
    (* 55 *) EmptyString;
    (* 56 *) "def run_risk_assessment():";
    (* 57 *) "    " ++ dq ++ dq ++ dq ++ "Main function to orchestrate the risk assessment workflow." ++ dq ++ dq ++ dq;
    (* 58 *) "    print(" ++ dq ++ "\n--- Starting Automated Risk Assessment ---" ++ dq ++ ")";
    (* 59 *) "    ";
    (* 60 *) "    print(" ++ dq ++ "\nStep 1: Loading spatial layers... (Placeholder)" ++ dq ++ ")";
    (* 61 *) "    print(" ++ dq ++ "Step 2: Standardizing layers by clipping... (Placeholder)" ++ dq ++ ")";
    (* 62 *) "    print(" ++ dq ++ "Step 3: Normalizing layers to 0-1 scale... (Placeholder)" ++ dq ++ ")";
    (* 63 *) "    print(" ++ dq ++ "Step 4: Applying Weighted Linear Combination... (Placeholder)" ++ dq ++ ")";
    (* 64 *) "    ";
    (* 65 *) "    print(" ++ dq ++ "\n✅ Risk assessment workflow complete (simulation)." ++ dq ++ ")";
    (* 66 *) "    print(" ++ dq ++ "Final risk map would be saved in the output directory." ++ dq ++ ")";
    (* 67 *) EmptyString;
    (* 68 *) "# --- Main execution block ---";
    (* 69 *) "if __name__ == " ++ dq ++ "__main__" ++ dq ++ ":";
    (* 70 *) "    print(" ++ dq ++ "Running PyQGIS Script for 'The Digital Epidemic'" ++ dq ++ ")";
    (* 71 *) "    ";
    (* 72 *) "    qgs_instance = initialize_qgis()";
    (* 73 *) "    ";
    (* 74 *) "    if qgs_instance:";
    (* 75 *) "        run_risk_assessment()";
    (* 76 *) "        # Clean up the QGIS application";
    (* 77 *) "        qgs_instance.exitQgis()";
    (* 78 *) "        print(" ++ dq ++ "\nQGIS environment closed." ++ dq ++ ")";
    (* 79 *) "    else:";
    (* 80 *) "        print(" ++ dq ++ "\nScript execution halted due to initialization failure." ++ dq ++ ")"
  ].

(** The content of the file: every line followed by a newline. *)
Definition source_file : string :=
  String.concat EmptyString (map (fun l => l ++ Py.newline) source_lines).

(** [str.splitlines()] for a text whose only line break is the newline: the
    pieces between newlines; a final piece that is empty is not a line. *)
Fixpoint splitlines_from (cur : string) (s : string) : list string :=
  match s with
  | EmptyString => if String.eqb cur EmptyString then [] else [cur]
  | String c rest =>
      if Ascii.eqb c (ascii_of_nat 10) then cur :: splitlines_from EmptyString rest
      else splitlines_from (cur ++ String c EmptyString) rest
  end.

Definition splitlines (s : string) : list string := splitlines_from EmptyString s.

(** [str.split(newline)]: as above, but the piece after the last newline is
    kept even when it is empty. *)
Fixpoint split_newline_from (cur : string) (s : string) : list string :=
  match s with
  | EmptyString => [cur]
  | String c rest =>
      if Ascii.eqb c (ascii_of_nat 10) then cur :: split_newline_from EmptyString rest
      else split_newline_from (cur ++ String c EmptyString) rest
  end.

Definition split_newline (s : string) : list string := split_newline_from EmptyString s.

(** What a line of the script is. *)
Inductive line_kind : Type :=
| Blank            (* nothing but spaces *)
| Comment          (* a # comment, or a statement that is only a string literal
                      (a docstring) *)
| PrintStmt        (* print(...) of a literal *)
| Boilerplate      (* any other statement that computes nothing and calls only
                      the library's start-up and shutdown and the script's own
                      functions *)
| Logic.           (* a line that computes: arithmetic, a comparison, a number,
                      or a call of anything else *)

Definition line_kind_eqb (k k' : line_kind) : bool :=
  match k, k' with
  | Blank, Blank | Comment, Comment
  | PrintStmt, PrintStmt | Boilerplate, Boilerplate | Logic, Logic => true
  | _, _ => false
  end.

Fixpoint lstrip (s : string) : string :=
  match s with
  | String c rest => if Ascii.eqb c " " then lstrip rest else s
  | EmptyString => EmptyString
  end.

Fixpoint only_spaces (s : string) : bool :=
  match s with
  | String c rest => Ascii.eqb c " " && only_spaces rest
  | EmptyString => true
  end.

(** Where the reading of a line stands: in code, in a string literal in single
    or in double quotes, or in an expression between braces inside one. *)
Inductive lex_state : Type := Code | SingleQ | DoubleQ | SingleQBrace | DoubleQBrace.

(** The code of a line: the line without the text of its string literals and
    without its comment.  What a string holds between braces is kept, braces
    included, since an f-string evaluates it; a backslash in a string takes the
    next character with it. *)
Fixpoint skeleton (st : lex_state) (s : string) : string :=
  match s with
  | EmptyString => EmptyString
  | String c rest =>
      match st with
      | Code =>
          if Ascii.eqb c "#" then EmptyString
          else if Ascii.eqb c "'" then skeleton SingleQ rest
          else if Ascii.eqb c (ascii_of_nat 34) then skeleton DoubleQ rest
          else String c (skeleton Code rest)
      | SingleQ =>
          if Ascii.eqb c "'" then skeleton Code rest
          else if Ascii.eqb c (ascii_of_nat 92) then
            match rest with
            | String _ rest' => skeleton SingleQ rest'
            | EmptyString => EmptyString
            end
          else if Ascii.eqb c "{" then String c (skeleton SingleQBrace rest)
          else skeleton SingleQ rest
      | DoubleQ =>
          if Ascii.eqb c (ascii_of_nat 34) then skeleton Code rest
          else if Ascii.eqb c (ascii_of_nat 92) then
            match rest with
            | String _ rest' => skeleton DoubleQ rest'
            | EmptyString => EmptyString
            end
          else if Ascii.eqb c "{" then String c (skeleton DoubleQBrace rest)
          else skeleton DoubleQ rest
      | SingleQBrace =>
          String c (skeleton (if Ascii.eqb c "}" then SingleQ else SingleQBrace) rest)
      | DoubleQBrace =>
          String c (skeleton (if Ascii.eqb c "}" then DoubleQ else DoubleQBrace) rest)
      end
  end.

(** An arithmetic, bitwise or comparison operator, or a digit. *)
Definition computes_char (c : ascii) : bool :=
  let n := nat_of_ascii c in
  existsb (Ascii.eqb c) ["+"; "-"; "*"; "/"; "%"; "@"; "^"; "&"; "|"; "~"; "<"; ">"]%char
  || (Nat.leb 48 n && Nat.leb n 57).

Fixpoint has_arithmetic (code : string) : bool :=
  match code with
  | EmptyString => false
  | String c rest => computes_char c || has_arithmetic rest
  end.

(** A character of a dotted name. *)
Definition name_char (c : ascii) : bool :=
  let n := nat_of_ascii c in
  (Nat.leb 65 n && Nat.leb n 90) || (Nat.leb 97 n && Nat.leb n 122)
  || (Nat.leb 48 n && Nat.leb n 57) || Ascii.eqb c "_" || Ascii.eqb c ".".

(** The dotted names that stand right before an opening parenthesis; [cur] is
    the name being read. *)
Fixpoint callees_from (cur : string) (code : string) : list string :=
  match code with
  | EmptyString => []
  | String c rest =>
      if name_char c then callees_from (cur ++ String c EmptyString) rest
      else if Ascii.eqb c "(" then
        (if String.eqb cur EmptyString then [] else [cur]) ++ callees_from EmptyString rest
      else callees_from EmptyString rest
  end.

Definition callees (code : string) : list string := callees_from EmptyString code.

(** What a line may call without being workflow logic: [print], the entry
    points that configure, start and stop the library, and the script's own two
    functions. *)
Definition allowed_callees : list string :=
  [ "print";
    "QgsApplication.setPrefixPath"; "QgsApplication"; "qgs.initQgis";
    "sys.path.append"; "os.path.join"; "Processing.initialize";
    "qgs_instance.exitQgis";
    "initialize_qgis"; "run_risk_assessment" ].

Definition computes (code : string) : bool :=
  has_arithmetic code ||
  negb (forallb (fun f => existsb (String.eqb f) allowed_callees) (callees code)).

Definition classify (line : string) : line_kind :=
  let s := lstrip line in
  if String.eqb s EmptyString then Blank
  else if String.prefix "#" s then Comment
  else
    let code := skeleton Code s in
    if only_spaces code then Comment
    else if computes code then Logic
    else if String.prefix "print(" code then PrintStmt
    else Boilerplate.

(** The lines with the numbers [from], ..., [to] (counted from 1). *)
Definition lines_between (from to : nat) : list string :=
  firstn (to + 1 - from) (skipn (from - 1) source_lines).

End SourceText.

(** ** Observations on runs *)

Module Obs.
Import Qgis Py Script.

(** The library entry points the [try] body of [initialize_qgis] goes through,
    in program order. *)
Definition init_ops : list libop :=
  [ ImportQgsApplication;
    ImportQgsRasterCalculator;
    SetPrefixPath QGIS_INSTALL_PATH true;
    NewQgsApplication [] false;
    InitQgis;
    ImportProcessing;
    ImportProcessingClass;
    ProcessingInitialize ].

(** The first entry point of [ops] at which the oracle raises, with the
    exception raised there. *)
Fixpoint first_failure (E : env) (ops : list libop) : option (libop * exn) :=
  match ops with
  | [] => None
  | op :: rest =>
      match E op with
      | Some e => Some (op, e)
      | None => first_failure E rest
      end
  end.

(** The entry points of [ops] that are reached: all of them up to and with the
    first one that raises. *)
Fixpoint attempted (E : env) (ops : list libop) : list libop :=
  match ops with
  | [] => []
  | op :: rest =>
      match E op with
      | Some _ => [op]
      | None => op :: attempted E rest
      end
  end.

Definition prints (evs : list event) : list string :=
  flat_map (fun ev => match ev with EvPrint s => [s] | EvCall _ => [] end) evs.

Definition calls (evs : list event) : list libop :=
  flat_map (fun ev => match ev with EvPrint _ => [] | EvCall op => [op] end) evs.

(** The installation paths handed to the library. *)
Definition prefix_paths (evs : list event) : list string :=
  flat_map (fun op => match op with SetPrefixPath p _ => [p] | _ => [] end) (calls evs).

(** The messages that describe the steps of the workflow. *)
Definition step_messages : list string :=
  [msg_step1; msg_step2; msg_step3; msg_step4].

(** Everything [run_risk_assessment] prints. *)
Definition workflow_messages : list string :=
  [msg_start; msg_step1; msg_step2; msg_step3; msg_step4; msg_complete; msg_saved].

Definition is_step_message (ev : event) : bool :=
  match ev with
  | EvPrint s => existsb (String.eqb s) step_messages
  | EvCall _ => false
  end.

Definition is_workflow_message (ev : event) : bool :=
  match ev with
  | EvPrint s => existsb (String.eqb s) workflow_messages
  | EvCall _ => false
  end.

(** [sub] occurs in [l] as a subsequence: in this order, possibly with other
    elements in between. *)
Fixpoint subseq_b (sub l : list string) : bool :=
  match sub, l with
  | [], _ => true
  | _ :: _, [] => false
  | x :: sub', y :: l' => if String.eqb x y then subseq_b sub' l' else subseq_b sub l'
  end.

(** [sub] occurs in [s]. *)
Fixpoint contains (sub s : string) : bool :=
  String.prefix sub s ||
  match s with
  | EmptyString => false
  | String _ rest => contains sub rest
  end.

(** The directory [initialize_qgis] adds to the module search path. *)
Definition plugins_path : string :=
  os_path_join QGIS_INSTALL_PATH "apps/qgis/python/plugins".

Definition with_plugins_path (w : world) : world :=
  mk_world (sys_path w ++ [plugins_path]) (environ w) (argv w) (files w) (stdout_encoding w).

(** The entry points reached before [sys.path] is extended. *)
Definition ops_before_append : list libop := firstn 5 init_ops.

(** Runs of the library used as examples. *)

(** Every entry point returns. *)
Definition E_ok : env := fun _ => None.

(** QGIS is not installed: the first import fails. *)
Definition E_no_qgis : env :=
  fun op =>
    match op with
    | ImportQgsApplication => Some (mk_exn ModuleNotFoundError "No module named 'qgis'")
    | _ => None
    end.

(** The Processing plugin is not on the search path. *)
Definition E_no_processing : env :=
  fun op =>
    match op with
    | ImportProcessing => Some (mk_exn ModuleNotFoundError "No module named 'processing'")
    | _ => None
    end.

(** The application object cannot be built. *)
Definition E_bad_app : env :=
  fun op =>
    match op with
    | NewQgsApplication _ _ => Some (mk_exn RuntimeError "could not create QgsApplication")
    | _ => None
    end.

(** Processing fails with an exception class of the library's own. *)
Definition E_processing_error : env :=
  fun op =>
    match op with
    | ProcessingInitialize =>
        Some (mk_exn (Derived "QgsProcessingException" Exception) "no providers")
    | _ => None
    end.

(** The user interrupts the start of the library. *)
Definition E_interrupt : env :=
  fun op =>
    match op with
    | InitQgis => Some (mk_exn KeyboardInterrupt EmptyString)
    | _ => None
    end.

(** The library cannot be shut down. *)
Definition E_exit_fails : env :=
  fun op =>
    match op with
    | ExitQgis => Some (mk_exn RuntimeError "exitQgis failed")
    | _ => None
    end.

(** A provider that Processing loads at its initialization is missing. *)
Definition E_provider_missing : env :=
  fun op =>
    match op with
    | ProcessingInitialize => Some (mk_exn ModuleNotFoundError "No module named 'osgeo'")
    | _ => None
    end.

(** The entry points reached after [initQgis] has returned. *)
Definition ops_after_start : list libop := skipn 5 init_ops.

(** Every library entry point of the script, in program order. *)
Definition script_ops : list libop := init_ops ++ [ExitQgis].

Definition w0 : world :=
  mk_world ["/usr/lib/python3"] [] ["qgis_risk_assessment.py"] [] UTF8.

(** The same state with a standard output that encodes ASCII only. *)
Definition w_ascii : world :=
  mk_world ["/usr/lib/python3"] [] ["qgis_risk_assessment.py"] [] ASCII.

Definition w1 : world :=
  mk_world [] [("QGIS_PREFIX_PATH", "/opt/qgis")] ["qgis_risk_assessment.py"; "/opt/qgis"]
    [("/opt/qgis/README", "qgis")] UTF8.

End Obs.

(** * Properties *)

Module Props.
Import Qgis Py Script Obs.
Local Open Scope list_scope.
Local Open Scope py_scope.

(** ** The monad, one projection at a time *)

Section Projections.
Context {A B : Type}.
Variable E : env.

Lemma res_bind (m : M A) (k : A -> M B) (w : world) :
  res (bind m k w) =
  match res (m w) with
  | Returned a => res (k a (final (m w)))
  | Raised e => Raised e
  end.
Proof. unfold bind. destruct (res (m w)); reflexivity. Qed.

Lemma out_bind (m : M A) (k : A -> M B) (w : world) :
  out (bind m k w) =
  out (m w) ++
  match res (m w) with
  | Returned a => out (k a (final (m w)))
  | Raised _ => []
  end.
Proof. unfold bind. destruct (res (m w)); cbn [out]; auto using app_nil_r. Qed.

Lemma final_bind (m : M A) (k : A -> M B) (w : world) :
  final (bind m k w) =
  match res (m w) with
  | Returned a => final (k a (final (m w)))
  | Raised _ => final (m w)
  end.
Proof. unfold bind. destruct (res (m w)); reflexivity. Qed.

Lemma res_call (op : libop) (k : unit -> M B) (w : world) :
  res (bind (call E op) k w) =
  match E op with
  | None => res (k tt w)
  | Some e => Raised e
  end.
Proof. unfold bind, call. destruct (E op); reflexivity. Qed.

Lemma out_call (op : libop) (k : unit -> M B) (w : world) :
  out (bind (call E op) k w) =
  EvCall op :: match E op with
               | None => out (k tt w)
               | Some _ => []
               end.
Proof. unfold bind, call. destruct (E op); reflexivity. Qed.

Lemma final_call (op : libop) (k : unit -> M B) (w : world) :
  final (bind (call E op) k w) =
  match E op with
  | None => final (k tt w)
  | Some _ => w
  end.
Proof. unfold bind, call. destruct (E op); reflexivity. Qed.

Lemma res_new (args : list string) (gui : bool) (k : QgsApp -> M B) (w : world) :
  res (bind (new_QgsApplication E args gui) k w) =
  match E (NewQgsApplication args gui) with
  | None => res (k qgs_app w)
  | Some e => Raised e
  end.
Proof.
  unfold new_QgsApplication, bind, call, ret.
  destruct (E (NewQgsApplication args gui)); reflexivity.
Qed.

Lemma out_new (args : list string) (gui : bool) (k : QgsApp -> M B) (w : world) :
  out (bind (new_QgsApplication E args gui) k w) =
  EvCall (NewQgsApplication args gui) ::
  match E (NewQgsApplication args gui) with
  | None => out (k qgs_app w)
  | Some _ => []
  end.
Proof.
  unfold new_QgsApplication, bind, call, ret.
  destruct (E (NewQgsApplication args gui)); reflexivity.
Qed.

Lemma final_new (args : list string) (gui : bool) (k : QgsApp -> M B) (w : world) :
  final (bind (new_QgsApplication E args gui) k w) =
  match E (NewQgsApplication args gui) with
  | None => final (k qgs_app w)
  | Some _ => w
  end.
Proof.
  unfold new_QgsApplication, bind, call, ret.
  destruct (E (NewQgsApplication args gui)); reflexivity.
Qed.

Lemma res_print (s : string) (k : unit -> M B) (w : world) :
  res (bind (print s) k w) =
  if can_encode (stdout_encoding w) s then res (k tt w) else Raised (encode_error s).
Proof. unfold bind, print. destruct (can_encode (stdout_encoding w) s); reflexivity. Qed.

Lemma out_print (s : string) (k : unit -> M B) (w : world) :
  out (bind (print s) k w) =
  if can_encode (stdout_encoding w) s then EvPrint s :: out (k tt w) else [].
Proof. unfold bind, print. destruct (can_encode (stdout_encoding w) s); reflexivity. Qed.

Lemma final_print (s : string) (k : unit -> M B) (w : world) :
  final (bind (print s) k w) =
  if can_encode (stdout_encoding w) s then final (k tt w) else w.
Proof. unfold bind, print. destruct (can_encode (stdout_encoding w) s); reflexivity. Qed.

Lemma res_append (p : string) (k : unit -> M B) (w : world) :
  res (bind (sys_path_append p) k w) =
  res (k tt (mk_world (sys_path w ++ [p]) (environ w) (argv w) (files w) (stdout_encoding w))).
Proof. reflexivity. Qed.

Lemma out_append (p : string) (k : unit -> M B) (w : world) :
  out (bind (sys_path_append p) k w) =
  out (k tt (mk_world (sys_path w ++ [p]) (environ w) (argv w) (files w) (stdout_encoding w))).
Proof. reflexivity. Qed.

Lemma final_append (p : string) (k : unit -> M B) (w : world) :
  final (bind (sys_path_append p) k w) =
  final (k tt (mk_world (sys_path w ++ [p]) (environ w) (argv w) (files w) (stdout_encoding w))).
Proof. reflexivity. Qed.

End Projections.

Section TryExcept.
Context {A : Type}.

Lemma res_try (body : M A) (hs : list (exn_class * (exn -> M A))) (w : world) :
  res (try_except body hs w) =
  match res (body w) with
  | Returned a => Returned a
  | Raised e =>
      match select_handler hs e with
      | Some h => res (h e (final (body w)))
      | None => Raised e
      end
  end.
Proof.
  unfold try_except. destruct (res (body w)) eqn:R; [exact R|].
  destruct (select_handler hs e); [reflexivity | exact R].
Qed.

Lemma out_try (body : M A) (hs : list (exn_class * (exn -> M A))) (w : world) :
  out (try_except body hs w) =
  out (body w) ++
  match res (body w) with
  | Returned _ => []
  | Raised e =>
      match select_handler hs e with
      | Some h => out (h e (final (body w)))
      | None => []
      end
  end.
Proof.
  unfold try_except. destruct (res (body w)) eqn:R; [now rewrite app_nil_r|].
  destruct (select_handler hs e); [reflexivity | now rewrite app_nil_r].
Qed.

Lemma final_try (body : M A) (hs : list (exn_class * (exn -> M A))) (w : world) :
  final (try_except body hs w) =
  match res (body w) with
  | Returned _ => final (body w)
  | Raised e =>
      match select_handler hs e with
      | Some h => final (h e (final (body w)))
      | None => final (body w)
      end
  end.
Proof.
  unfold try_except. destruct (res (body w)) eqn:R; [reflexivity|].
  destruct (select_handler hs e); reflexivity.
Qed.

End TryExcept.

(** One statement of a sequence: push the projection through it. *)
Ltac py_step :=
  first
    [ rewrite res_call | rewrite out_call | rewrite final_call
    | rewrite res_new | rewrite out_new | rewrite final_new
    | rewrite res_append | rewrite out_append | rewrite final_append
    | rewrite res_print | rewrite out_print | rewrite final_print ];
  cbv beta.

(** Case analysis on what the oracle says at the next entry point. *)
Ltac oracle_cases E :=
  repeat match goal with
         | |- context [match E ?op with _ => _ end] => destruct (E op) as [?e|]
         end.

(** ** What standard output can encode *)

Lemma can_encode_ascii (enc : encoding) (s : string) :
  is_ascii s = true -> can_encode enc s = true.
Proof. destruct enc; [reflexivity | exact (fun H => H)]. Qed.

Lemma can_encode_init_ok (enc : encoding) :
  can_encode enc msg_init_ok = match enc with UTF8 => true | ASCII => false end.
Proof. destruct enc; reflexivity. Qed.

Lemma can_encode_not_found (enc : encoding) :
  can_encode enc msg_not_found = match enc with UTF8 => true | ASCII => false end.
Proof. destruct enc; reflexivity. Qed.

Lemma can_encode_unexpected (enc : encoding) (e : exn) :
  can_encode enc (msg_unexpected e) = match enc with UTF8 => true | ASCII => false end.
Proof. destruct enc; reflexivity. Qed.

Lemma can_encode_banner (enc : encoding) : can_encode enc msg_banner = true.
Proof. apply can_encode_ascii. vm_compute. reflexivity. Qed.

Lemma can_encode_halted (enc : encoding) : can_encode enc msg_halted = true.
Proof. apply can_encode_ascii. vm_compute. reflexivity. Qed.

Lemma can_encode_closed (enc : encoding) : can_encode enc msg_closed = true.
Proof. apply can_encode_ascii. vm_compute. reflexivity. Qed.

(** A [UnicodeEncodeError] is caught by the second clause, not by the first. *)
Lemma encode_error_not_import (s : string) :
  isinstance (encode_error s) ImportError = false.
Proof. reflexivity. Qed.

Lemma encode_error_exception (s : string) :
  isinstance (encode_error s) Exception = true.
Proof. reflexivity. Qed.

(** ** How [initialize_qgis] ends *)

Lemma body_res (E : env) (w : world) :
  res (initialize_qgis_body E w) =
  match first_failure E init_ops with
  | None =>
      match stdout_encoding w with
      | UTF8 => Returned (Some qgs_app)
      | ASCII => Raised (encode_error msg_init_ok)
      end
  | Some (_, e) => Raised e
  end.
Proof.
  unfold initialize_qgis_body, init_ops.
  repeat py_step. cbn [first_failure stdout_encoding]. rewrite can_encode_init_ok.
  oracle_cases E; try reflexivity.
  destruct (stdout_encoding w); reflexivity.
Qed.

Lemma body_out (E : env) (w : world) :
  out (initialize_qgis_body E w) =
  map EvCall (attempted E init_ops) ++
  match first_failure E init_ops with
  | None =>
      match stdout_encoding w with
      | UTF8 => [EvPrint msg_init_ok]
      | ASCII => []
      end
  | Some _ => []
  end.
Proof.
  unfold initialize_qgis_body, init_ops.
  repeat py_step. cbn [first_failure attempted stdout_encoding].
  rewrite can_encode_init_ok.
  oracle_cases E; try reflexivity.
  destruct (stdout_encoding w); reflexivity.
Qed.

Lemma body_final (E : env) (w : world) :
  final (initialize_qgis_body E w) =
  match first_failure E ops_before_append with
  | None => with_plugins_path w
  | Some _ => w
  end.
Proof.
  unfold initialize_qgis_body, ops_before_append, init_ops.
  repeat py_step. cbn [first_failure firstn stdout_encoding].
  oracle_cases E; try reflexivity.
  destruct (can_encode (stdout_encoding w) msg_init_ok); reflexivity.
Qed.

Lemma body_encoding (E : env) (w : world) :
  stdout_encoding (final (initialize_qgis_body E w)) = stdout_encoding w.
Proof.
  rewrite body_final. destruct (first_failure E ops_before_append); reflexivity.
Qed.

(** The two handlers. *)
Lemma handler_missing (w : world) :
  (print msg_not_found ;; print msg_cannot_run ;; ret (@None QgsApp)) w =
  match stdout_encoding w with
  | UTF8 => mk_outcome (Returned None) w [EvPrint msg_not_found; EvPrint msg_cannot_run]
  | ASCII => mk_outcome (Raised (encode_error msg_not_found)) w []
  end.
Proof. destruct w as [sp en ar fs enc]. destruct enc; reflexivity. Qed.

Lemma handler_unexpected (e : exn) (w : world) :
  (print (msg_unexpected e) ;; ret (@None QgsApp)) w =
  match stdout_encoding w with
  | UTF8 => mk_outcome (Returned None) w [EvPrint (msg_unexpected e)]
  | ASCII => mk_outcome (Raised (encode_error (msg_unexpected e))) w []
  end.
Proof. destruct w as [sp en ar fs enc]. destruct enc; reflexivity. Qed.

(** The handler that runs for [e], applied to the state the body left. *)
Ltac run_handler E w :=
  cbv beta;
  first [rewrite handler_missing | rewrite handler_unexpected];
  rewrite (body_encoding E w).

Lemma init_res (E : env) (w : world) :
  res (initialize_qgis E w) =
  match first_failure E init_ops with
  | None =>
      match stdout_encoding w with
      | UTF8 => Returned (Some qgs_app)
      | ASCII => Raised (encode_error (msg_unexpected (encode_error msg_init_ok)))
      end
  | Some (_, e) =>
      if isinstance e ImportError then
        match stdout_encoding w with
        | UTF8 => Returned None
        | ASCII => Raised (encode_error msg_not_found)
        end
      else if isinstance e Exception then
        match stdout_encoding w with
        | UTF8 => Returned None
        | ASCII => Raised (encode_error (msg_unexpected e))
        end
      else Raised e
  end.
Proof.
  unfold initialize_qgis. rewrite res_try, body_res.
  destruct (first_failure E init_ops) as [[op e]|].
  - cbn [select_handler].
    destruct (isinstance e ImportError).
    + run_handler E w. destruct (stdout_encoding w); reflexivity.
    + destruct (isinstance e Exception); [|reflexivity].
      run_handler E w. destruct (stdout_encoding w); reflexivity.
  - destruct (stdout_encoding w) eqn:Henc; [reflexivity|].
    cbn [select_handler].
    rewrite encode_error_not_import, encode_error_exception.
    run_handler E w. rewrite Henc. reflexivity.
Qed.

Lemma init_out (E : env) (w : world) :
  out (initialize_qgis E w) =
  map EvCall (attempted E init_ops) ++
  match first_failure E init_ops with
  | None =>
      match stdout_encoding w with
      | UTF8 => [EvPrint msg_init_ok]
      | ASCII => []
      end
  | Some (_, e) =>
      match stdout_encoding w with
      | UTF8 =>
          if isinstance e ImportError then [EvPrint msg_not_found; EvPrint msg_cannot_run]
          else if isinstance e Exception then [EvPrint (msg_unexpected e)]
          else []
      | ASCII => []
      end
  end.
Proof.
  unfold initialize_qgis. rewrite out_try, body_out, body_res, <- app_assoc.
  f_equal.
  destruct (first_failure E init_ops) as [[op e]|].
  - cbn [select_handler app].
    destruct (isinstance e ImportError).
    + run_handler E w. destruct (stdout_encoding w); reflexivity.
    + destruct (isinstance e Exception).
      * run_handler E w. destruct (stdout_encoding w); reflexivity.
      * destruct (stdout_encoding w); reflexivity.
  - destruct (stdout_encoding w) eqn:Henc; [reflexivity|].
    cbn [select_handler app].
    rewrite encode_error_not_import, encode_error_exception.
    run_handler E w. rewrite Henc. reflexivity.
Qed.

Lemma init_final (E : env) (w : world) :
  final (initialize_qgis E w) = final (initialize_qgis_body E w).
Proof.
  unfold initialize_qgis. rewrite final_try.
  destruct (res (initialize_qgis_body E w)) as [a|e]; [reflexivity|].
  cbn [select_handler].
  destruct (isinstance e ImportError).
  - run_handler E w. destruct (stdout_encoding w); reflexivity.
  - destruct (isinstance e Exception); [|reflexivity].
    run_handler E w. destruct (stdout_encoding w); reflexivity.
Qed.

Lemma init_encoding (E : env) (w : world) :
  stdout_encoding (final (initialize_qgis E w)) = stdout_encoding w.
Proof. rewrite init_final. apply body_encoding. Qed.

(** An instance of [ImportError] is an instance of [Exception]. *)
Lemma import_error_is_exception (e : exn) :
  isinstance e ImportError = true -> isinstance e Exception = true.
Proof.
  destruct e as [c s]. unfold isinstance, issubclass. cbn [exn_cls].
  induction c as [| | | | | | | | | | |n p IH]; cbn; try congruence.
  exact IH.
Qed.

Lemma prints_app (l l' : list event) : prints (l ++ l') = prints l ++ prints l'.
Proof. unfold prints. apply flat_map_app. Qed.

Lemma prints_calls (ops : list libop) : prints (map EvCall ops) = [].
Proof. induction ops as [|op ops IH]; [reflexivity | exact IH]. Qed.

Lemma calls_app (l l' : list event) : calls (l ++ l') = calls l ++ calls l'.
Proof. unfold calls. apply flat_map_app. Qed.

Lemma calls_map (ops : list libop) : calls (map EvCall ops) = ops.
Proof. induction ops as [|op ops IH]; [reflexivity | cbn; now f_equal]. Qed.

(** The lines [initialize_qgis] prints. *)
Lemma init_prints (E : env) (w : world) :
  prints (out (initialize_qgis E w)) =
  match first_failure E init_ops with
  | None =>
      match stdout_encoding w with
      | UTF8 => [msg_init_ok]
      | ASCII => []
      end
  | Some (_, e) =>
      match stdout_encoding w with
      | UTF8 =>
          if isinstance e ImportError then [msg_not_found; msg_cannot_run]
          else if isinstance e Exception then [msg_unexpected e]
          else []
      | ASCII => []
      end
  end.
Proof.
  rewrite init_out, prints_app, prints_calls. cbn [app].
  destruct (first_failure E init_ops) as [[op e]|];
    destruct (stdout_encoding w); try reflexivity.
  destruct (isinstance e ImportError); [reflexivity|].
  destruct (isinstance e Exception); reflexivity.
Qed.

(** ** Claims on [initialize_qgis] *)

(** C1.  The code at the failing input: QGIS is not installed (the first import
    raises [ModuleNotFoundError]) and standard output encodes ASCII only.  The
    first [print] of the [except ImportError] clause (line 49, a text that
    starts with U+274C) raises [UnicodeEncodeError], which leaves
    [initialize_qgis]: no error message is printed and [None] is not
    returned. *)
Theorem initialize_qgis_import_error_ascii :
  is_import ImportQgsApplication = true /\
  first_failure E_no_qgis init_ops =
    Some (ImportQgsApplication, mk_exn ModuleNotFoundError "No module named 'qgis'") /\
  res (initialize_qgis E_no_qgis w_ascii) =
    Raised (mk_exn UnicodeEncodeError
              "'ascii' codec can't encode character '\u274c' in position 0: ordinal not in range(128)") /\
  prints (out (initialize_qgis E_no_qgis w_ascii)) = [].
Proof.
  split; [reflexivity|].
  split; [reflexivity|].
  split; vm_compute; reflexivity.
Qed.

(** C8.  The code at the failing input: standard output encodes ASCII only.
    When a library step raises an instance of [Exception] (here the
    construction of the application raises [RuntimeError]), the
    [except Exception] clause starts with a [print] of a text that holds U+274C
    (line 53); it raises [UnicodeEncodeError], an instance of [Exception], which
    is propagated to the caller.  The same happens when every library step
    returns: the success message (line 46, U+2705) cannot be written. *)
Theorem initialize_qgis_propagates_encode_error :
  res (initialize_qgis E_bad_app w_ascii) =
    Raised (mk_exn UnicodeEncodeError
              "'ascii' codec can't encode character '\u274c' in position 0: ordinal not in range(128)") /\
  res (initialize_qgis E_ok w_ascii) =
    Raised (mk_exn UnicodeEncodeError
              "'ascii' codec can't encode character '\u274c' in position 0: ordinal not in range(128)") /\
  isinstance
    (mk_exn UnicodeEncodeError
       "'ascii' codec can't encode character '\u274c' in position 0: ordinal not in range(128)")
    Exception = true /\
  prints (out (initialize_qgis E_bad_app w_ascii)) = [] /\
  prints (out (initialize_qgis E_ok w_ascii)) = [].
Proof.
  split; [vm_compute; reflexivity|].
  split; [vm_compute; reflexivity|].
  split; [reflexivity|].
  split; vm_compute; reflexivity.
Qed.

(** ** [run_risk_assessment] *)

Lemma run_outcome (w : world) :
  run_risk_assessment w =
  match stdout_encoding w with
  | UTF8 => mk_outcome (Returned tt) w (map EvPrint workflow_messages)
  | ASCII =>
      mk_outcome (Raised (encode_error msg_complete)) w
        (map EvPrint [msg_start; msg_step1; msg_step2; msg_step3; msg_step4])
  end.
Proof. destruct w as [sp en ar fs enc]. destruct enc; reflexivity. Qed.

(** C3.  The code at the failing input: standard output encodes ASCII only.
    [run_risk_assessment] prints the first five of its seven messages; the
    sixth (line 65, a text that holds U+2705) raises [UnicodeEncodeError], so
    the run ends with an exception and the last two messages are not
    printed. *)
Theorem run_risk_assessment_ascii_stdout :
  res (run_risk_assessment w_ascii) =
    Raised (mk_exn UnicodeEncodeError
              "'ascii' codec can't encode character '\u2705' in position 1: ordinal not in range(128)") /\
  out (run_risk_assessment w_ascii) =
    [ EvPrint msg_start; EvPrint msg_step1; EvPrint msg_step2; EvPrint msg_step3;
      EvPrint msg_step4 ] /\
  final (run_risk_assessment w_ascii) = w_ascii.
Proof.
  split; [vm_compute; reflexivity|].
  split; vm_compute; reflexivity.
Qed.

(** C4.  The step messages of [run_risk_assessment] come out in the order
    Step 1 (loading), Step 2 (standardizing by clipping), Step 3 (normalizing to
    the 0-1 scale), Step 4 (weighted linear combination): these four, each once,
    and in this order, are the step messages among the events of a run. *)
Theorem run_risk_assessment_step_order (w : world) :
  filter is_step_message (out (run_risk_assessment w)) =
    [EvPrint msg_step1; EvPrint msg_step2; EvPrint msg_step3; EvPrint msg_step4] /\
  (contains "Step 1" msg_step1 && contains "Loading spatial layers" msg_step1 = true) /\
  (contains "Step 2" msg_step2 && contains "Standardizing layers by clipping" msg_step2 = true) /\
  (contains "Step 3" msg_step3 && contains "Normalizing layers to 0-1 scale" msg_step3 = true) /\
  (contains "Step 4" msg_step4 && contains "Weighted Linear Combination" msg_step4 = true).
Proof.
  rewrite run_outcome.
  split; [destruct (stdout_encoding w); vm_compute; reflexivity|].
  repeat split; vm_compute; reflexivity.
Qed.

(** C9.  The code at two inputs that differ in the encoding of standard output
    only: with UTF-8 the run returns after seven lines, with ASCII it raises
    after five, so the two executions do not leave the same text on standard
    output. *)
Theorem run_risk_assessment_output_differs :
  stdout_encoding w0 = UTF8 /\ stdout_encoding w_ascii = ASCII /\
  res (run_risk_assessment w0) = Returned tt /\
  res (run_risk_assessment w_ascii) = Raised (encode_error msg_complete) /\
  stdout_text (out (run_risk_assessment w0)) <>
    stdout_text (out (run_risk_assessment w_ascii)).
Proof.
  split; [reflexivity|]. split; [reflexivity|].
  split; [reflexivity|]. split; [reflexivity|].
  intros H. apply (f_equal String.length) in H. vm_compute in H. discriminate H.
Qed.

(** ** The main execution block *)

Lemma attempted_incl (E : env) (ops : list libop) (op : libop) :
  In op (attempted E ops) -> In op ops.
Proof.
  induction ops as [|o ops IH]; cbn [attempted]; [auto|].
  destruct (E o); cbn [In]; intuition.
Qed.

Lemma attempted_all (E : env) (ops : list libop) :
  first_failure E ops = None -> attempted E ops = ops.
Proof.
  induction ops as [|o ops IH]; cbn [attempted first_failure]; [auto|].
  destruct (E o); [discriminate|]. intros H. now rewrite IH.
Qed.

Lemma init_returns_instance (E : env) (w : world) (q : QgsApp) :
  res (initialize_qgis E w) = Returned (Some q) -> first_failure E init_ops = None.
Proof.
  rewrite init_res.
  destruct (first_failure E init_ops) as [[op e]|]; [|reflexivity].
  destruct (stdout_encoding w), (isinstance e ImportError), (isinstance e Exception);
    discriminate.
Qed.

(** An instance is returned at a standard output in UTF-8 only. *)
Lemma init_instance_utf8 (E : env) (w : world) (q : QgsApp) :
  res (initialize_qgis E w) = Returned (Some q) -> stdout_encoding w = UTF8.
Proof.
  rewrite init_res.
  destruct (stdout_encoding w); [reflexivity|].
  destruct (first_failure E init_ops) as [[op e]|]; [|discriminate].
  destruct (isinstance e ImportError), (isinstance e Exception); discriminate.
Qed.

Lemma print_ok (s : string) (w : world) :
  can_encode (stdout_encoding w) s = true ->
  print s w = mk_outcome (Returned tt) w [EvPrint s].
Proof. unfold print. now intros ->. Qed.

(** After an instance was returned the workflow prints all its messages. *)
Lemma run_after_init (E : env) (w : world) (q : QgsApp) :
  res (initialize_qgis E w) = Returned (Some q) ->
  run_risk_assessment (final (initialize_qgis E w)) =
  mk_outcome (Returned tt) (final (initialize_qgis E w)) (map EvPrint workflow_messages).
Proof.
  intros Hq. rewrite run_outcome, init_encoding, (init_instance_utf8 _ _ _ Hq).
  reflexivity.
Qed.



Lemma main_out (E : env) (w : world) :
  out (main E w) =
  EvPrint msg_banner :: out (initialize_qgis E w) ++
  match res (initialize_qgis E w) with
  | Returned (Some _) =>
      map EvPrint workflow_messages ++
      EvCall ExitQgis :: match E ExitQgis with
                         | None => [EvPrint msg_closed]
                         | Some _ => []
                         end
  | Returned None => [EvPrint msg_halted]
  | Raised _ => []
  end.
Proof.
  unfold main. rewrite out_print, can_encode_banner. cbv beta. rewrite out_bind.
  destruct (res (initialize_qgis E w)) as [[q|]|e] eqn:Hres; cbn [truthy].
  - rewrite out_bind, (run_after_init _ _ _ Hres). cbn [res final out].
    rewrite out_call. destruct (E ExitQgis); [reflexivity|].
    now rewrite (print_ok msg_closed) by apply can_encode_closed.
  - now rewrite (print_ok msg_halted) by apply can_encode_halted.
  - reflexivity.
Qed.

Lemma main_res (E : env) (w : world) :
  res (main E w) =
  match res (initialize_qgis E w) with
  | Returned (Some _) =>
      match E ExitQgis with
      | None => Returned tt
      | Some e => Raised e
      end
  | Returned None => Returned tt
  | Raised e => Raised e
  end.
Proof.
  unfold main. rewrite res_print, can_encode_banner. cbv beta. rewrite res_bind.
  destruct (res (initialize_qgis E w)) as [[q|]|e] eqn:Hres; cbn [truthy].
  - rewrite res_bind, (run_after_init _ _ _ Hres). cbn [res final out].
    rewrite res_call. destruct (E ExitQgis); [reflexivity|].
    now rewrite (print_ok msg_closed) by apply can_encode_closed.
  - now rewrite (print_ok msg_halted) by apply can_encode_halted.
  - reflexivity.
Qed.

Lemma main_final (E : env) (w : world) :
  final (main E w) = final (initialize_qgis E w).
Proof.
  unfold main. rewrite final_print, can_encode_banner. cbv beta. rewrite final_bind.
  destruct (res (initialize_qgis E w)) as [[q|]|e] eqn:Hres; cbn [truthy].
  - rewrite final_bind, (run_after_init _ _ _ Hres). cbn [res final out].
    rewrite final_call. destruct (E ExitQgis); [reflexivity|].
    now rewrite (print_ok msg_closed) by apply can_encode_closed.
  - now rewrite (print_ok msg_halted) by apply can_encode_halted.
  - reflexivity.
Qed.

(** [initialize_qgis] prints none of the workflow's messages. *)
Lemma init_no_workflow_message (E : env) (w : world) (ev : event) :
  In ev (out (initialize_qgis E w)) -> is_workflow_message ev = false.
Proof.
  rewrite init_out, in_app_iff, in_map_iff.
  intros [[op [<- _]] | H]; [reflexivity|].
  destruct (first_failure E init_ops) as [[op e]|]; destruct (stdout_encoding w);
    try (destruct H; fail).
  - destruct (isinstance e ImportError).
    + destruct H as [<- | [<- | []]]; reflexivity.
    + destruct (isinstance e Exception).
      * destruct H as [<- | []]. reflexivity.
      * destruct H.
  - destruct H as [<- | []]. reflexivity.
Qed.

(** [initialize_qgis] does not stop the library. *)
Lemma init_no_exit (E : env) (w : world) :
  ~ In (EvCall ExitQgis) (out (initialize_qgis E w)).
Proof.
  rewrite init_out, in_app_iff, in_map_iff.
  intros [[op [Hop Hin]] | H].
  - injection Hop as ->. apply attempted_incl in Hin.
    unfold init_ops in Hin. cbn [In] in Hin.
    repeat (destruct Hin as [Hin | Hin]; [discriminate Hin|]). exact Hin.
  - destruct (first_failure E init_ops) as [[op e]|]; destruct (stdout_encoding w);
      try (destruct H; fail).
    + destruct (isinstance e ImportError); [|destruct (isinstance e Exception)];
        cbn [In] in H; intuition discriminate.
    + cbn [In] in H. intuition discriminate.
Qed.

Lemma step_is_workflow (ev : event) :
  is_step_message ev = true -> is_workflow_message ev = true.
Proof.
  destruct ev as [s|op]; [|discriminate].
  unfold is_step_message, is_workflow_message, step_messages, workflow_messages.
  cbn [existsb]. rewrite !orb_true_iff. tauto.
Qed.

(** A workflow message in a run of the script means that [initialize_qgis]
    returned an instance. *)
Lemma workflow_message_needs_instance (E : env) (w : world) (ev : event) :
  In ev (out (main E w)) -> is_workflow_message ev = true ->
  exists q, res (initialize_qgis E w) = Returned (Some q).
Proof.
  pose proof (init_no_workflow_message E w) as Hwf.
  rewrite main_out.
  destruct (res (initialize_qgis E w)) as [[q|]|e]; [eauto| |].
  - cbn [In]. rewrite in_app_iff. cbn [In].
    intros [<- | [H | [<- | []]]] Hev; try discriminate Hev.
    rewrite (Hwf _ H) in Hev. discriminate Hev.
  - cbn [In]. rewrite in_app_iff. cbn [In].
    intros [<- | [H | []]] Hev; try discriminate Hev.
    rewrite (Hwf _ H) in Hev. discriminate Hev.
Qed.

(** C5.  In the main block [exitQgis] is called exactly when [initialize_qgis]
    returned an instance; when it did, the events of the run are the banner and
    those of the initialization (among them the call of [initQgis], and no call
    of [exitQgis]), then the whole workflow, then the call of [exitQgis], then
    at most the closing message, and no workflow message lies outside the
    workflow's stretch; and in any run a workflow message is printed only when
    [initialize_qgis] returned an instance. *)
Theorem main_start_stop (E : env) (w : world) :
  (In (EvCall ExitQgis) (out (main E w)) <->
   exists q, res (initialize_qgis E w) = Returned (Some q)) /\
  (forall q, res (initialize_qgis E w) = Returned (Some q) ->
     exists post,
       out (main E w) =
         (EvPrint msg_banner :: out (initialize_qgis E w)) ++
         out (run_risk_assessment (final (initialize_qgis E w))) ++
         EvCall ExitQgis :: post /\
       In (EvCall InitQgis) (out (initialize_qgis E w)) /\
       ~ In (EvCall ExitQgis) (EvPrint msg_banner :: out (initialize_qgis E w)) /\
       ~ In (EvCall ExitQgis) post /\
       (forall ev, In ev (EvPrint msg_banner :: out (initialize_qgis E w)) \/ In ev post ->
                   is_workflow_message ev = false)) /\
  (forall ev, In ev (out (main E w)) -> is_workflow_message ev = true ->
     exists q, res (initialize_qgis E w) = Returned (Some q)).
Proof.
  pose proof (init_no_exit E w) as Hexit.
  pose proof (init_no_workflow_message E w) as Hwf.
  split; [|split].
  - rewrite main_out. split.
    + destruct (res (initialize_qgis E w)) as [[q|]|e]; [eauto| |].
      * cbn [In]. rewrite in_app_iff. cbn [In]. intuition discriminate.
      * cbn [In]. rewrite in_app_iff. cbn [In]. intuition discriminate.
    + intros [q ->]. right. rewrite !in_app_iff. right. right. left. reflexivity.
  - intros q Hq. rewrite main_out, Hq, (run_after_init _ _ _ Hq). cbn [out].
    exists (match E ExitQgis with None => [EvPrint msg_closed] | Some _ => [] end).
    split; [now rewrite <- app_comm_cons|].
    split.
    { rewrite init_out, (attempted_all _ _ (init_returns_instance _ _ _ Hq)).
      rewrite in_app_iff. left. unfold init_ops. cbn [map In]. tauto. }
    split.
    { cbn [In]. intros [H|H]; [discriminate H | exact (Hexit H)]. }
    split.
    { destruct (E ExitQgis); cbn [In]; intuition discriminate. }
    intros ev [[<- | H] | H]; [reflexivity | exact (Hwf _ H) |].
    destruct (E ExitQgis); cbn [In] in H; [destruct H|].
    destruct H as [<- | []]. reflexivity.
  - intros ev. apply workflow_message_needs_instance.
Qed.

Lemma main_start_stop_witness :
  exists post,
    out (main E_ok w0) =
      (EvPrint msg_banner :: out (initialize_qgis E_ok w0)) ++
      out (run_risk_assessment (final (initialize_qgis E_ok w0))) ++
      EvCall ExitQgis :: post /\
    In (EvCall InitQgis) (out (initialize_qgis E_ok w0)).
Proof.
  destruct (main_start_stop E_ok w0) as [_ [H _]].
  destruct (H qgs_app eq_refl) as [post [H1 [H2 _]]].
  exists post. split; assumption.
Defined.

(** C10.  When [initialize_qgis] returns [None], the main block ends normally
    after printing the message that execution is halted, as its last line; its
    run holds no call of [exitQgis] and no message of [run_risk_assessment], so
    no step message either. *)
Theorem main_halts_on_failed_init (E : env) (w : world) :
  res (initialize_qgis E w) = Returned None ->
  res (main E w) = Returned tt /\
  out (main E w) = EvPrint msg_banner :: out (initialize_qgis E w) ++ [EvPrint msg_halted] /\
  ~ In (EvCall ExitQgis) (out (main E w)) /\
  (forall ev, In ev (out (main E w)) -> is_workflow_message ev = false) /\
  (forall ev, In ev (out (main E w)) -> is_step_message ev = false).
Proof.
  intros Hnone.
  assert (Hwf : forall ev, In ev (out (main E w)) -> is_workflow_message ev = false).
  { intros ev. rewrite main_out, Hnone. cbn [In]. rewrite in_app_iff. cbn [In].
    intros [<- | [H | [<- | []]]]; try reflexivity.
    exact (init_no_workflow_message E w _ H). }
  split; [now rewrite main_res, Hnone|].
  split; [now rewrite main_out, Hnone|].
  split.
  { rewrite main_out, Hnone. cbn [In]. rewrite in_app_iff. cbn [In].
    pose proof (init_no_exit E w). intuition discriminate. }
  split; [exact Hwf|].
  intros ev Hin. destruct (is_step_message ev) eqn:Hs; [|reflexivity].
  apply step_is_workflow in Hs. rewrite (Hwf _ Hin) in Hs. discriminate Hs.
Qed.

Lemma main_halts_on_failed_init_witness :
  res (initialize_qgis E_no_processing w0) = Returned None /\
  res (main E_no_processing w0) = Returned tt /\
  out (main E_no_processing w0) =
    EvPrint msg_banner :: out (initialize_qgis E_no_processing w0) ++ [EvPrint msg_halted].
Proof.
  split; [reflexivity|].
  destruct (main_halts_on_failed_init E_no_processing w0 eq_refl) as [H1 [H2 _]].
  split; assumption.
Defined.

(** ** The step messages are live code *)

(** C2 as stated fails: that no run of the script emits a step message is
    refuted by the run in which the library starts, which prints all four. *)
Lemma no_step_message_refuted :
  ~ (forall (E : env) (w : world) (ev : event),
        In ev (out (main E w)) -> is_step_message ev = false).
Proof.
  intros H.
  assert (X : existsb is_step_message (out (main E_ok w0)) = true)
    by (vm_compute; reflexivity).
  apply existsb_exists in X. destruct X as [ev [Hin Hs]].
  rewrite (H _ _ _ Hin) in Hs. discriminate Hs.
Qed.

(** C2, as the code has it.  The four statements that print the step messages
    (lines 60 to 63 of the file) are [print] statements, not comments; every run
    of [run_risk_assessment] emits the four step messages; a run of the script
    emits a step message exactly when [initialize_qgis] returned an instance,
    and then it prints all four, in order. *)
Theorem step_messages_emitted (E : env) (w : world) :
  map SourceText.classify (SourceText.lines_between 60 63) =
    [SourceText.PrintStmt; SourceText.PrintStmt; SourceText.PrintStmt; SourceText.PrintStmt] /\
  (forall w', filter is_step_message (out (run_risk_assessment w')) =
              map EvPrint step_messages) /\
  ((exists ev, In ev (out (main E w)) /\ is_step_message ev = true) <->
   (exists q, res (initialize_qgis E w) = Returned (Some q))) /\
  (forall q, res (initialize_qgis E w) = Returned (Some q) ->
             subseq_b step_messages (prints (out (main E w))) = true).
Proof.
  split; [vm_compute; reflexivity|].
  split; [intros w'; rewrite run_outcome; destruct (stdout_encoding w');
          vm_compute; reflexivity|].
  assert (Hall : forall q, res (initialize_qgis E w) = Returned (Some q) ->
                           subseq_b step_messages (prints (out (main E w))) = true).
  { intros q Hq.
    rewrite main_out, Hq, init_out, (init_returns_instance _ _ _ Hq).
    rewrite (attempted_all _ _ (init_returns_instance _ _ _ Hq)).
    rewrite (init_instance_utf8 _ _ _ Hq).
    destruct (E ExitQgis); vm_compute; reflexivity. }
  split; [|exact Hall].
  split.
  - intros [ev [Hin Hs]]. apply step_is_workflow in Hs.
    destruct (workflow_message_needs_instance E w ev Hin Hs) as [q Hq]. eauto.
  - intros [q Hq]. exists (EvPrint msg_step1). split; [|reflexivity].
    rewrite main_out, Hq. right. rewrite !in_app_iff. right. left.
    cbn [workflow_messages map In]. tauto.
Qed.

(** ** The installation path *)

Lemma init_calls (E : env) (w : world) :
  calls (out (initialize_qgis E w)) = attempted E init_ops.
Proof.
  rewrite init_out, calls_app, calls_map.
  destruct (first_failure E init_ops) as [[op e]|]; destruct (stdout_encoding w);
    try apply app_nil_r.
  destruct (isinstance e ImportError); [apply app_nil_r|].
  destruct (isinstance e Exception); apply app_nil_r.
Qed.

Lemma main_calls (E : env) (w : world) :
  calls (out (main E w)) =
  attempted E init_ops ++
  match res (initialize_qgis E w) with
  | Returned (Some _) => [ExitQgis]
  | _ => []
  end.
Proof.
  rewrite main_out.
  change (calls (EvPrint msg_banner :: ?l)) with (calls l).
  rewrite calls_app, init_calls. f_equal.
  destruct (res (initialize_qgis E w)) as [[q|]|e]; try reflexivity.
  destruct (E ExitQgis); reflexivity.
Qed.

Lemma main_prefix_paths (E : env) (w : world) :
  prefix_paths (out (main E w)) = [] \/
  prefix_paths (out (main E w)) = [QGIS_INSTALL_PATH].
Proof.
  unfold prefix_paths. rewrite main_calls, flat_map_app.
  replace (flat_map _ match res (initialize_qgis E w) with
                      | Returned (Some _) => [ExitQgis]
                      | _ => []
                      end) with (@nil string)
    by (destruct (res (initialize_qgis E w)) as [[q|]|e]; reflexivity).
  rewrite app_nil_r. unfold init_ops. cbn [attempted].
  oracle_cases E; cbn [flat_map app]; auto.
Qed.

(** C6 as stated fails: the script does not discover the installation path.
    No run hands the library a path other than the constant, and a run in a
    state that points at another installation still uses [/usr]. *)
Lemma install_path_discovery_refuted :
  ~ (exists (E : env) (w : world) (p : string),
        In p (prefix_paths (out (main E w))) /\ p <> QGIS_INSTALL_PATH) /\
  prefix_paths (out (main E_ok w1)) = ["/usr"].
Proof.
  split; [|vm_compute; reflexivity].
  intros [E [w [p [Hin Hp]]]].
  destruct (main_prefix_paths E w) as [H | H]; rewrite H in Hin.
  - destruct Hin.
  - destruct Hin as [<- | []]. apply Hp. reflexivity.
Qed.

(** C6, as the code has it.  The installation path is the constant [/usr]:
    every path a run hands to [setPrefixPath] is this constant, whatever the
    process state and the behaviour of the library, the path is the same in
    any two states, and the only change a run makes to the process state is to
    add the plugins directory under this constant to the module search path. *)
Theorem install_path_is_constant (E : env) (w : world) :
  QGIS_INSTALL_PATH = "/usr" /\
  (prefix_paths (out (main E w)) = [] \/
   prefix_paths (out (main E w)) = [QGIS_INSTALL_PATH]) /\
  (forall p, In p (prefix_paths (out (main E w))) -> p = "/usr") /\
  (forall w', prefix_paths (out (main E w)) = prefix_paths (out (main E w'))) /\
  plugins_path = "/usr/apps/qgis/python/plugins" /\
  (final (main E w) = w \/ final (main E w) = with_plugins_path w).
Proof.
  split; [reflexivity|].
  split; [apply main_prefix_paths|].
  split.
  { intros p Hin. destruct (main_prefix_paths E w) as [H | H]; rewrite H in Hin.
    - destruct Hin.
    - destruct Hin as [<- | []]. reflexivity. }
  split.
  { intros w'. unfold prefix_paths. rewrite !main_calls, !flat_map_app. f_equal.
    destruct (res (initialize_qgis E w)) as [[q|]|e];
      destruct (res (initialize_qgis E w')) as [[q'|]|e']; reflexivity. }
  split; [reflexivity|].
  rewrite main_final, init_final, body_final.
  destruct (first_failure E ops_before_append); auto.
Qed.

(** ** The text of the script *)

(** C7 as stated fails: the file does not have 81 lines. *)
Lemma source_file_not_81_lines :
  length (SourceText.splitlines SourceText.source_file) <> 81.
Proof. vm_compute. discriminate. Qed.

(** C7, as the file has it.  The file has 80 lines (what follows its last
    newline is empty, so that cutting it at the newlines gives the 80 lines and
    one empty piece), and each line is a blank line, a comment, a [print]
    statement or boilerplate: no line computes, that is, outside its string
    literals and comment no line holds an arithmetic or comparison operator or
    a number, or calls anything but [print], the library's start-up and
    shutdown and the script's own two functions. *)
Theorem source_file_lines :
  SourceText.splitlines SourceText.source_file = SourceText.source_lines /\
  length (SourceText.splitlines SourceText.source_file) = 80 /\
  SourceText.split_newline SourceText.source_file =
    SourceText.source_lines ++ [EmptyString] /\
  forallb (fun l => negb (SourceText.line_kind_eqb (SourceText.classify l) SourceText.Logic))
    SourceText.source_lines = true.
Proof. repeat split; vm_compute; reflexivity. Qed.

(** What the reading of lines rejects: a weighted sum, a call of the raster
    calculator, a call of a function of the workflow, a [print] of a computed
    value. *)
Example classify_rejects_workflow_logic :
  map SourceText.classify
    [ "        return 0.3 * rainfall + 0.7 * density";
      "    calc = QgsRasterCalculator(expression, output, entries)";
      "    risk = weighted_sum(layers, weights)";
      "    print(normalize(layer))" ] =
  [SourceText.Logic; SourceText.Logic; SourceText.Logic; SourceText.Logic].
Proof. vm_compute. reflexivity. Qed.

(** ** Runs worth recording *)

(** An exception of a class the library defines, derived from [Exception], is
    caught by the second clause and quoted in the message. *)
Example library_exception_is_caught :
  res (initialize_qgis E_processing_error w0) = Returned None /\
  prints (out (initialize_qgis E_processing_error w0)) =
    ["❌ An unexpected error occurred during QGIS initialization: no providers"].
Proof. split; reflexivity. Qed.

(** An exception that is not an instance of [Exception] goes through
    [initialize_qgis] and ends the script. *)
Example interrupt_propagates :
  res (initialize_qgis E_interrupt w0) = Raised (mk_exn KeyboardInterrupt EmptyString) /\
  res (main E_interrupt w0) = Raised (mk_exn KeyboardInterrupt EmptyString).
Proof. split; reflexivity. Qed.

(** When the library has started ([initQgis] returned) and a later step of the
    initialization fails, [initialize_qgis] returns [None] and the script ends
    without calling [exitQgis]. *)
Example started_and_not_stopped :
  existsb (fun ev => match ev with EvCall InitQgis => true | _ => false end)
    (out (main E_no_processing w0)) = true /\
  existsb (fun ev => match ev with EvCall ExitQgis => true | _ => false end)
    (out (main E_no_processing w0)) = false /\
  sys_path (final (main E_no_processing w0)) =
    ["/usr/lib/python3"; "/usr/apps/qgis/python/plugins"].
Proof. repeat split; vm_compute; reflexivity. Qed.

End Props.

(** * Further properties of the script *)

Module More.
Import Qgis Py Script Obs Props.
Local Open Scope list_scope.
Local Open Scope py_scope.

(** ** Helper facts *)

Lemma first_failure_none_iff (E : env) (ops : list libop) :
  first_failure E ops = None <-> (forall op, In op ops -> E op = None).
Proof.
  induction ops as [|o ops IH]; cbn [first_failure In].
  - split; [intros _ op [] | reflexivity].
  - destruct (E o) eqn:Ho.
    + split; [discriminate|]. intros H. rewrite (H o) in Ho by auto. discriminate Ho.
    + rewrite IH. split.
      * intros H op [<- | Hin]; auto.
      * intros H op Hin. auto.
Qed.

Lemma first_failure_firstn (E : env) (n : nat) (ops : list libop) :
  first_failure E ops = None -> first_failure E (firstn n ops) = None.
Proof.
  revert n. induction ops as [|o ops IH]; intros [|n]; cbn [first_failure firstn];
    try reflexivity.
  destruct (E o); [discriminate | apply IH].
Qed.

Lemma not_exception_not_import_error (e : exn) :
  isinstance e Exception = false -> isinstance e ImportError = false.
Proof.
  intros H. destruct (isinstance e ImportError) eqn:Himp; [|reflexivity].
  apply import_error_is_exception in Himp. congruence.
Qed.

(** A failure after [initQgis] means the five steps before it returned. *)
Lemma late_failure (E : env) (op : libop) (e : exn) :
  first_failure E init_ops = Some (op, e) ->
  In op ops_after_start ->
  first_failure E ops_before_append = None.
Proof.
  unfold init_ops, ops_before_append, ops_after_start, init_ops.
  cbn [first_failure firstn skipn In].
  intros Hff Hin.
  repeat match goal with
         | H : context [match E ?o with _ => _ end] |- _ => destruct (E o)
         end;
    try reflexivity;
    injection Hff as <- _; intuition discriminate.
Qed.

Lemma attempted_reaches_start (E : env) :
  first_failure E ops_before_append = None ->
  In InitQgis (attempted E init_ops).
Proof.
  unfold ops_before_append, init_ops. cbn [first_failure firstn attempted].
  intros Hff.
  repeat match goal with
         | H : context [match E ?o with _ => _ end] |- _ => destruct (E o)
         end;
    try discriminate Hff.
  cbn [In]. tauto.
Qed.

Lemma main_no_exit_without_instance (E : env) (w : world) :
  (forall q, res (initialize_qgis E w) <> Returned (Some q)) ->
  ~ In (EvCall ExitQgis) (out (main E w)).
Proof.
  intros Hno. rewrite main_out.
  pose proof (init_no_exit E w) as Hexit.
  destruct (res (initialize_qgis E w)) as [[q|]|e].
  - destruct (Hno q eq_refl).
  - cbn [In]. rewrite in_app_iff. cbn [In]. intuition discriminate.
  - cbn [In]. rewrite in_app_iff. cbn [In]. intuition discriminate.
Qed.

(** ** When the initialization succeeds *)

(** X1.  [initialize_qgis] returns an instance exactly when every one of the
    eight library steps of its [try] body returns and standard output can take
    the success message (it is in UTF-8); it has then made the eight calls in
    program order, printed the success message and nothing else, and added the
    plugins directory to the module search path. *)
Theorem initialize_qgis_success_iff (E : env) (w : world) :
  ((exists q, res (initialize_qgis E w) = Returned (Some q)) <->
   (forall op, In op init_ops -> E op = None) /\ stdout_encoding w = UTF8) /\
  ((forall op, In op init_ops -> E op = None) -> stdout_encoding w = UTF8 ->
   out (initialize_qgis E w) = map EvCall init_ops ++ [EvPrint msg_init_ok] /\
   final (initialize_qgis E w) = with_plugins_path w).
Proof.
  rewrite <- first_failure_none_iff. split.
  - split.
    + intros [q Hq]. split.
      * exact (init_returns_instance _ _ _ Hq).
      * exact (init_instance_utf8 _ _ _ Hq).
    + intros [Hff Henc]. exists qgs_app. now rewrite init_res, Hff, Henc.
  - intros Hff Henc. split.
    + now rewrite init_out, (attempted_all _ _ Hff), Hff, Henc.
    + rewrite init_final, body_final.
      unfold ops_before_append. now rewrite (first_failure_firstn E 5 _ Hff).
Qed.

(** ** The module search path *)

(** X2.  A run of the script leaves the environment, the command line and the
    files as they were.  The module search path gets the plugins directory
    appended exactly when the five library steps before the append return, and
    the entry stays there when a later step of the initialization fails; when
    one of the five fails, the state is untouched. *)
Theorem sys_path_effect (E : env) (w : world) :
  environ (final (main E w)) = environ w /\
  argv (final (main E w)) = argv w /\
  files (final (main E w)) = files w /\
  (first_failure E ops_before_append = None ->
   sys_path (final (main E w)) = sys_path w ++ ["/usr/apps/qgis/python/plugins"]) /\
  (forall op e, first_failure E ops_before_append = Some (op, e) ->
                final (main E w) = w) /\
  (forall op e, first_failure E init_ops = Some (op, e) -> In op ops_after_start ->
                sys_path (final (main E w)) = sys_path w ++ ["/usr/apps/qgis/python/plugins"]).
Proof.
  rewrite main_final, init_final, body_final.
  assert (Hlate : forall op e, first_failure E init_ops = Some (op, e) ->
                               In op ops_after_start ->
                               first_failure E ops_before_append = None)
    by (intros op e; apply late_failure).
  destruct (first_failure E ops_before_append) as [[op0 e0]|].
  - do 3 (split; [reflexivity|]).
    split; [intros H; discriminate H|].
    split; [intros op e _; reflexivity|].
    intros op e Hff Hin. discriminate (Hlate op e Hff Hin).
  - do 3 (split; [reflexivity|]).
    split; [intros _; reflexivity|].
    split; [intros op e H; discriminate H|].
    intros op e _ _. reflexivity.
Qed.

(** X9.  [initialize_qgis] does not check whether the plugins directory is
    already on the module search path: when it is called a second time and both
    calls get to the append (the first one returning, with an instance or with
    [None]), the directory is on the path twice. *)
Theorem initialize_twice_appends_twice
    (E1 E2 : env) (w : world) (r : option QgsApp) :
  res (initialize_qgis E1 w) = Returned r ->
  first_failure E1 ops_before_append = None ->
  first_failure E2 ops_before_append = None ->
  sys_path (final ((initialize_qgis E1 ;; initialize_qgis E2) w)) =
    sys_path w ++ [plugins_path; plugins_path].
Proof.
  intros Hr H1 H2.
  rewrite final_bind, Hr.
  rewrite !init_final, !body_final, H1, H2.
  cbn [with_plugins_path sys_path]. now rewrite <- app_assoc.
Qed.

Lemma initialize_twice_appends_twice_witness :
  res (initialize_qgis E_no_processing w0) = Returned None /\
  sys_path (final ((initialize_qgis E_no_processing ;; initialize_qgis E_provider_missing) w0)) =
    sys_path w0 ++ [plugins_path; plugins_path].
Proof.
  split; [reflexivity|].
  apply (initialize_twice_appends_twice E_no_processing E_provider_missing w0 None);
    reflexivity.
Defined.

(** ** Runs that end early *)

(** X3.  When a step after [initQgis] fails (the import of Processing or its
    initialization), the library has been started ([initQgis] was called and
    returned) and the script ends without ever calling [exitQgis], whatever the
    class of the exception. *)
Theorem library_started_and_not_stopped (E : env) (w : world) (op : libop) (e : exn) :
  first_failure E init_ops = Some (op, e) ->
  In op ops_after_start ->
  E InitQgis = None /\
  In (EvCall InitQgis) (out (main E w)) /\
  ~ In (EvCall ExitQgis) (out (main E w)).
Proof.
  intros Hff Hin. pose proof (late_failure _ _ _ Hff Hin) as H5.
  split.
  { apply (proj1 (first_failure_none_iff E ops_before_append) H5).
    unfold ops_before_append, init_ops. cbn [firstn In]. auto 10. }
  split.
  { rewrite main_out. cbn [In]. right. apply in_or_app. left.
    rewrite init_out. apply in_or_app. left. apply in_map.
    exact (attempted_reaches_start E H5). }
  apply main_no_exit_without_instance. intros q Hq.
  rewrite (init_returns_instance _ _ _ Hq) in Hff. discriminate Hff.
Qed.

Lemma library_started_and_not_stopped_witness :
  E_provider_missing InitQgis = None /\
  In (EvCall InitQgis) (out (main E_provider_missing w0)) /\
  ~ In (EvCall ExitQgis) (out (main E_provider_missing w0)).
Proof.
  apply (library_started_and_not_stopped E_provider_missing w0 ProcessingInitialize
           (mk_exn ModuleNotFoundError "No module named 'osgeo'")).
  - reflexivity.
  - unfold ops_after_start, init_ops. cbn [skipn In]. auto.
Defined.

(** X4.  An exception that is not an instance of [Exception] (an interrupt, a
    request to exit) raised by a step of the initialization passes through
    [initialize_qgis] and ends the script: the banner is the only line printed,
    no error message and no halted message, and no library call follows the one
    that raised. *)
Theorem non_exception_ends_script (E : env) (w : world) (op : libop) (e : exn) :
  first_failure E init_ops = Some (op, e) ->
  isinstance e Exception = false ->
  res (initialize_qgis E w) = Raised e /\
  res (main E w) = Raised e /\
  prints (out (main E w)) = [msg_banner] /\
  calls (out (main E w)) = attempted E init_ops.
Proof.
  intros Hff Hexc. pose proof (not_exception_not_import_error e Hexc) as Himp.
  assert (Hres : res (initialize_qgis E w) = Raised e)
    by now rewrite init_res, Hff, Himp, Hexc.
  split; [exact Hres|].
  split; [now rewrite main_res, Hres|].
  split.
  - rewrite main_out, Hres, app_nil_r.
    change (prints (EvPrint msg_banner :: ?l)) with (msg_banner :: prints l).
    rewrite init_prints, Hff, Himp, Hexc. now destruct (stdout_encoding w).
  - now rewrite main_calls, Hres, app_nil_r.
Qed.

Lemma non_exception_ends_script_witness :
  res (initialize_qgis E_interrupt w0) = Raised (mk_exn KeyboardInterrupt EmptyString) /\
  res (main E_interrupt w0) = Raised (mk_exn KeyboardInterrupt EmptyString) /\
  prints (out (main E_interrupt w0)) = [msg_banner] /\
  calls (out (main E_interrupt w0)) = attempted E_interrupt init_ops.
Proof.
  apply (non_exception_ends_script E_interrupt w0 InitQgis
           (mk_exn KeyboardInterrupt EmptyString)); reflexivity.
Defined.

(** X5.  The call of [exitQgis] is not guarded: when [initialize_qgis] returned
    an instance (so the workflow went through) and [exitQgis] raises, whatever
    the class of the exception, the script ends with that exception right after
    the call, and the closing message is not printed. *)
Theorem exit_failure_ends_script (E : env) (w : world) (q : QgsApp) (e : exn) :
  res (initialize_qgis E w) = Returned (Some q) ->
  E ExitQgis = Some e ->
  res (main E w) = Raised e /\
  out (main E w) =
    EvPrint msg_banner :: map EvCall init_ops ++ [EvPrint msg_init_ok] ++
    map EvPrint workflow_messages ++ [EvCall ExitQgis] /\
  existsb (fun ev => match ev with
                     | EvPrint s => String.eqb s msg_closed
                     | EvCall _ => false
                     end) (out (main E w)) = false.
Proof.
  intros Hq Hexit.
  pose proof (init_returns_instance _ _ _ Hq) as Hff.
  pose proof (init_instance_utf8 _ _ _ Hq) as Henc.
  assert (Hout : out (main E w) =
                 EvPrint msg_banner :: map EvCall init_ops ++ [EvPrint msg_init_ok] ++
                 map EvPrint workflow_messages ++ [EvCall ExitQgis]).
  { rewrite main_out, Hq, init_out, (attempted_all _ _ Hff), Hff, Henc, Hexit.
    now rewrite <- app_assoc. }
  split; [now rewrite main_res, Hq, Hexit|].
  split; [exact Hout|].
  rewrite Hout. vm_compute. reflexivity.
Qed.

Lemma exit_failure_ends_script_witness :
  res (initialize_qgis E_exit_fails w0) = Returned (Some qgs_app) /\
  res (main E_exit_fails w0) = Raised (mk_exn RuntimeError "exitQgis failed") /\
  existsb (fun ev => match ev with
                     | EvPrint s => String.eqb s msg_closed
                     | EvCall _ => false
                     end) (out (main E_exit_fails w0)) = false.
Proof.
  split; [reflexivity|].
  destruct (exit_failure_ends_script E_exit_fails w0 qgs_app
              (mk_exn RuntimeError "exitQgis failed") eq_refl eq_refl) as [H1 [_ H3]].
  split; assumption.
Defined.

(** X6.  How the script ends.  It ends normally in two cases only, both at a
    standard output in UTF-8: every library step, [exitQgis] included, returned,
    and then its last line is the closing message; or a step of the
    initialization raised an instance of [Exception], and then its last line is
    the halted message.  In every other run it ends with an exception. *)
Theorem main_returns_iff (E : env) (w : world) :
  (res (main E w) = Returned tt <->
   stdout_encoding w = UTF8 /\
   ((first_failure E init_ops = None /\ E ExitQgis = None) \/
    (exists op e, first_failure E init_ops = Some (op, e) /\
                  isinstance e Exception = true))) /\
  (stdout_encoding w = UTF8 ->
   first_failure E init_ops = None -> E ExitQgis = None ->
   last (prints (out (main E w))) EmptyString = msg_closed) /\
  (forall op e, stdout_encoding w = UTF8 ->
                first_failure E init_ops = Some (op, e) ->
                isinstance e Exception = true ->
                last (prints (out (main E w))) EmptyString = msg_halted).
Proof.
  split; [|split].
  - rewrite main_res, init_res.
    destruct (stdout_encoding w).
    + destruct (first_failure E init_ops) as [[op e]|].
      * destruct (isinstance e ImportError) eqn:Himp.
        -- split; [|reflexivity]. intros _. split; [reflexivity|].
           right. exists op, e.
           split; [reflexivity | exact (import_error_is_exception e Himp)].
        -- destruct (isinstance e Exception) eqn:Hexc.
           ++ split; [|reflexivity]. intros _. split; [reflexivity|].
              right. exists op, e. auto.
           ++ split; [intros H; discriminate H|].
              intros [_ [[H _] | [op' [e' [H H']]]]]; [discriminate H|].
              injection H as _ <-. congruence.
      * destruct (E ExitQgis) as [e|].
        -- split; [intros H; discriminate H|].
           intros [_ [[_ H] | [op' [e' [H _]]]]]; discriminate H.
        -- split; [|reflexivity]. intros _. split; [reflexivity|]. left. auto.
    + split; [|intros [H _]; discriminate H].
      destruct (first_failure E init_ops) as [[op e]|]; [|intros H; discriminate H].
      destruct (isinstance e ImportError); [intros H; discriminate H|].
      destruct (isinstance e Exception); intros H; discriminate H.
  - intros Henc Hff Hexit.
    rewrite main_out, init_res, init_out, (attempted_all _ _ Hff), Hff, Henc, Hexit.
    vm_compute. reflexivity.
  - intros op e Henc Hff Hexc.
    assert (Hres : res (initialize_qgis E w) = Returned None).
    { rewrite init_res, Hff, Hexc, Henc. now destruct (isinstance e ImportError). }
    rewrite main_out, Hres.
    change (prints (EvPrint msg_banner :: ?l)) with (msg_banner :: prints l).
    rewrite prints_app, init_prints, Hff, Hexc, Henc.
    destruct (isinstance e ImportError); reflexivity.
Qed.

(** ** The order of the library calls *)

Lemma attempted_prefix (E : env) (ops : list libop) :
  exists rest, ops = attempted E ops ++ rest.
Proof.
  induction ops as [|o ops [rest IH]]; cbn [attempted].
  - exists []. reflexivity.
  - destruct (E o).
    + exists ops. reflexivity.
    + exists rest. cbn [app]. now rewrite <- IH.
Qed.

(** X7.  Whatever the library does, the calls a run of the script makes into it
    are an initial stretch of one fixed sequence: the two imports,
    [setPrefixPath], the construction of the application, [initQgis], the two
    imports of Processing, its initialization, and [exitQgis] last.  No call is
    skipped or made out of order, and [exitQgis] is called only after all the
    others. *)
Theorem library_calls_in_program_order (E : env) (w : world) :
  (exists rest, script_ops = calls (out (main E w)) ++ rest) /\
  (In ExitQgis (calls (out (main E w))) -> calls (out (main E w)) = script_ops).
Proof.
  rewrite main_calls. unfold script_ops.
  destruct (res (initialize_qgis E w)) as [[q|]|e] eqn:Hres.
  - rewrite (attempted_all _ _ (init_returns_instance _ _ _ Hres)).
    split; [exists []; now rewrite app_nil_r | reflexivity].
  - rewrite app_nil_r. split.
    + destruct (attempted_prefix E init_ops) as [rest Hrest].
      exists (rest ++ [ExitQgis]). rewrite app_assoc. now rewrite <- Hrest.
    + intros Hin. apply attempted_incl in Hin.
      unfold init_ops in Hin. cbn [In] in Hin. intuition discriminate.
  - rewrite app_nil_r. split.
    + destruct (attempted_prefix E init_ops) as [rest Hrest].
      exists (rest ++ [ExitQgis]). rewrite app_assoc. now rewrite <- Hrest.
    + intros Hin. apply attempted_incl in Hin.
      unfold init_ops in Hin. cbn [In] in Hin. intuition discriminate.
Qed.

(** ** Which error message *)

(** X8.  At a standard output in UTF-8 the error message of [initialize_qgis]
    is chosen by the class of the exception alone, not by the step that raised
    it: for an instance of [Exception] raised by any step, the two lines about
    the missing library are printed exactly when it is an instance of
    [ImportError] (its own text is then not shown), and the line that quotes
    the exception exactly when it is not. *)
Theorem error_message_by_class (E : env) (w : world) (op : libop) (e : exn) :
  stdout_encoding w = UTF8 ->
  first_failure E init_ops = Some (op, e) ->
  isinstance e Exception = true ->
  (prints (out (initialize_qgis E w)) = [msg_not_found; msg_cannot_run] <->
   isinstance e ImportError = true) /\
  (prints (out (initialize_qgis E w)) = [msg_unexpected e] <->
   isinstance e ImportError = false).
Proof.
  intros Henc Hff Hexc. rewrite init_prints, Hff, Hexc, Henc.
  destruct (isinstance e ImportError).
  - split; split; auto; intros H; discriminate H.
  - split; split; auto; intros H; discriminate H.
Qed.

Lemma error_message_by_class_witness :
  (prints (out (initialize_qgis E_provider_missing w0)) = [msg_not_found; msg_cannot_run] <->
   isinstance (mk_exn ModuleNotFoundError "No module named 'osgeo'") ImportError = true) /\
  (prints (out (initialize_qgis E_provider_missing w0)) =
     [msg_unexpected (mk_exn ModuleNotFoundError "No module named 'osgeo'")] <->
   isinstance (mk_exn ModuleNotFoundError "No module named 'osgeo'") ImportError = false).
Proof.
  apply (error_message_by_class E_provider_missing w0 ProcessingInitialize
           (mk_exn ModuleNotFoundError "No module named 'osgeo'")); reflexivity.
Defined.

(** ** The encoding of standard output *)

Lemma main_prints (E : env) (w : world) :
  prints (out (main E w)) =
  msg_banner :: prints (out (initialize_qgis E w)) ++
  match res (initialize_qgis E w) with
  | Returned (Some _) =>
      workflow_messages ++ match E ExitQgis with
                           | None => [msg_closed]
                           | Some _ => []
                           end
  | Returned None => [msg_halted]
  | Raised _ => []
  end.
Proof.
  rewrite main_out.
  change (prints (EvPrint msg_banner :: ?l)) with (msg_banner :: prints l).
  rewrite prints_app. do 2 f_equal.
  destruct (res (initialize_qgis E w)) as [[q|]|e]; try reflexivity.
  destruct (E ExitQgis); reflexivity.
Qed.

(** X11.  At a standard output in UTF-8, [initialize_qgis] propagates no
    exception of class [Exception]: whatever it raises is not an instance of
    [Exception]; when a library step of its body raises an instance of
    [Exception], it returns [None] and prints an error message (the two lines
    for a missing library, or the line that quotes the exception); and whenever
    it returns, the result is the application object or [None]. *)
Theorem initialize_qgis_catches_exceptions_utf8 (E : env) (w : world) :
  stdout_encoding w = UTF8 ->
  (forall e, res (initialize_qgis E w) = Raised e -> isinstance e Exception = false) /\
  (forall op e,
      first_failure E init_ops = Some (op, e) ->
      isinstance e Exception = true ->
      res (initialize_qgis E w) = Returned None /\
      (prints (out (initialize_qgis E w)) = [msg_not_found; msg_cannot_run] \/
       prints (out (initialize_qgis E w)) = [msg_unexpected e])) /\
  (res (initialize_qgis E w) = Returned (Some qgs_app) \/
   res (initialize_qgis E w) = Returned None \/
   exists e, res (initialize_qgis E w) = Raised e /\ isinstance e Exception = false).
Proof.
  intros Henc. rewrite init_res, init_prints, Henc.
  destruct (first_failure E init_ops) as [[op e]|].
  - destruct (isinstance e ImportError) eqn:Himp;
      [| destruct (isinstance e Exception) eqn:Hexc ].
    + split; [intros e' H; discriminate H|].
      split; [intros op' e' _ _; auto | auto].
    + split; [intros e' H; discriminate H|].
      split; [intros op' e' H _; injection H as _ <-; auto | auto].
    + split; [intros e' H; injection H as <-; exact Hexc|].
      split; [intros op' e' H H'; injection H as _ <-; congruence|].
      right. right. exists e. auto.
  - split; [intros e' H; discriminate H|].
    split; [intros op' e' H; discriminate H | auto].
Qed.

Lemma initialize_qgis_catches_exceptions_utf8_witness :
  res (initialize_qgis E_bad_app w0) = Returned None /\
  prints (out (initialize_qgis E_bad_app w0)) =
    [msg_unexpected (mk_exn RuntimeError "could not create QgsApplication")].
Proof.
  destruct (initialize_qgis_catches_exceptions_utf8 E_bad_app w0 eq_refl) as [_ [H _]].
  destruct (H (NewQgsApplication [] false)
              (mk_exn RuntimeError "could not create QgsApplication")
              eq_refl eq_refl) as [Hres [Hp | Hp]].
  - discriminate Hp.
  - split; assumption.
Defined.

(** X12.  [run_risk_assessment] never enters the library and leaves the process
    state as it found it; what it prints is an initial stretch of its seven
    messages, in their order: all seven, and a normal return, at a standard
    output in UTF-8; the first five, and [UnicodeEncodeError] at the sixth (the
    first one with a character outside ASCII), at one in ASCII.  Two runs at
    the same encoding end alike and print the same. *)
Theorem run_risk_assessment_frame (w : world) :
  final (run_risk_assessment w) = w /\
  calls (out (run_risk_assessment w)) = [] /\
  (exists rest, map EvPrint workflow_messages = out (run_risk_assessment w) ++ rest) /\
  (stdout_encoding w = UTF8 ->
   res (run_risk_assessment w) = Returned tt /\
   out (run_risk_assessment w) = map EvPrint workflow_messages) /\
  (stdout_encoding w = ASCII ->
   res (run_risk_assessment w) = Raised (encode_error msg_complete) /\
   out (run_risk_assessment w) =
     map EvPrint [msg_start; msg_step1; msg_step2; msg_step3; msg_step4]) /\
  (forall w', stdout_encoding w = stdout_encoding w' ->
              res (run_risk_assessment w) = res (run_risk_assessment w') /\
              out (run_risk_assessment w) = out (run_risk_assessment w')).
Proof.
  split; [rewrite run_outcome; now destruct (stdout_encoding w)|].
  split; [rewrite run_outcome; now destruct (stdout_encoding w)|].
  split.
  { rewrite run_outcome. destruct (stdout_encoding w); cbn [out].
    - exists []. now rewrite app_nil_r.
    - exists [EvPrint msg_complete; EvPrint msg_saved]. reflexivity. }
  split; [intros Henc; rewrite run_outcome, Henc; split; reflexivity|].
  split; [intros Henc; rewrite run_outcome, Henc; split; reflexivity|].
  intros w' Henc. rewrite !run_outcome, <- Henc.
  destruct (stdout_encoding w); split; reflexivity.
Qed.

(** X13.  At a standard output that encodes ASCII only the script never ends
    normally, whatever the library does: it prints the banner and nothing
    else, never calls [exitQgis], and ends with an exception, which is a
    [UnicodeEncodeError] unless a library step raised one that is not an
    instance of [Exception].  When every library step returns, the library has
    been started and is left running. *)
Theorem ascii_stdout_never_ends_normally (E : env) (w : world) :
  stdout_encoding w = ASCII ->
  (exists e, res (main E w) = Raised e /\
             (exn_cls e = UnicodeEncodeError \/ isinstance e Exception = false)) /\
  prints (out (main E w)) = [msg_banner] /\
  ~ In (EvCall ExitQgis) (out (main E w)) /\
  (first_failure E init_ops = None -> In (EvCall InitQgis) (out (main E w))).
Proof.
  intros Henc.
  assert (Hno : forall q, res (initialize_qgis E w) <> Returned (Some q)).
  { intros q Hq. rewrite (init_instance_utf8 _ _ _ Hq) in Henc. discriminate Henc. }
  split.
  { rewrite main_res, init_res, Henc.
    destruct (first_failure E init_ops) as [[op e]|].
    - destruct (isinstance e ImportError); [eexists; split; [reflexivity | now left]|].
      destruct (isinstance e Exception) eqn:Hexc;
        eexists; (split; [reflexivity|]); [now left | now right].
    - eexists. split; [reflexivity | now left]. }
  split.
  { rewrite main_prints, init_prints, init_res, Henc.
    destruct (first_failure E init_ops) as [[op e]|]; [|reflexivity].
    destruct (isinstance e ImportError); [reflexivity|].
    destruct (isinstance e Exception); reflexivity. }
  split; [exact (main_no_exit_without_instance E w Hno)|].
  intros Hff. rewrite main_out. cbn [In]. right. apply in_or_app. left.
  rewrite init_out, (attempted_all _ _ Hff). apply in_or_app. left.
  unfold init_ops. cbn [map In]. tauto.
Qed.

Lemma ascii_stdout_never_ends_normally_witness :
  (exists e, res (main E_ok w_ascii) = Raised e /\
             (exn_cls e = UnicodeEncodeError \/ isinstance e Exception = false)) /\
  prints (out (main E_ok w_ascii)) = [msg_banner] /\
  ~ In (EvCall ExitQgis) (out (main E_ok w_ascii)) /\
  (first_failure E_ok init_ops = None -> In (EvCall InitQgis) (out (main E_ok w_ascii))).
Proof.
  apply (ascii_stdout_never_ends_normally E_ok w_ascii). reflexivity.
Defined.

End More.
